(** * A shallow embedding of the astdys catalog store (src/astdys)

    The Python package wraps the AstDyS asteroid catalogs.  The parts
    embedded here are:
    - [AstDys._transform_astdys_catalog]: raw whitespace-delimited text to a
      table, through [pandas.read_csv(sep="\\s+", header=None, skiprows=k,
      names=columns, index_col=False, dtype={'name': str})];
    - the store ([load], [_build], [set_type], [_catalog]) as a state and
      error monad over the class attributes and the file system;
    - the queries [search], [search_by_axis], [get_catalog];
    - [util.convert_mjd_to_datetime] on Python's [datetime]/[timedelta].

    Python floats are left abstract ([FloatOps]): every statement about
    tables holds for any interpretation of the float operations. *)

From Stdlib Require Import ZArith QArith Qround Qpower Lia Lqa Ascii String DecimalString.
From stdpp Require Import base gmap strings list.

(** ** Python exceptions and results *)

Inductive py_error :=
| ValueError          (* also pandas.errors.ParserError, a subclass *)
| KeyError
| TypeError
| AttributeError
| FileNotFoundError
| DownloadError       (* the bare [Exception] raised by [_build] *)
| OverflowError.

Inductive result (A : Type) :=
| Ok (a : A)
| Err (e : py_error).
Arguments Ok {A} a.
Arguments Err {A} e.

Definition rbind {A B} (m : result A) (k : A -> result B) : result B :=
  match m with Ok a => k a | Err e => Err e end.

Notation "'let!' x := m 'in' k" := (rbind m (fun x => k))
  (at level 200, x name, m at level 100, k at level 200).

(** ** Python floats, left abstract *)

Class FloatOps (F : Type) := {
  f_of_Z : Z -> F;                 (* [float(n)] of an integer *)
  f_pi : F;                        (* np.pi *)
  fadd : F -> F -> F;
  fsub : F -> F -> F;
  fmul : F -> F -> F;
  fdiv : F -> F -> F;
  fle : F -> F -> bool;            (* Python [<=], false on NaN *)
  py_float : string -> option F;   (* Python [float(s)]; None = ValueError *)
  csv_float : string -> option F    (* the C parser's number conversion *)
}.

(** ** Tables (pandas DataFrames) *)

Section Tables.
Context {F : Type} `{FO : FloatOps F}.

(** A value of a DataFrame: text, float, integer, boolean or NaN. *)
Inductive cell :=
| CStr (s : string)
| CNum (x : F)
| CInt (z : Z)
| CBool (b : bool)
| CNaN.

Record DataFrame := {
  cols : list string;
  rows : list (list cell)
}.

(** [row[c]]: the value of column [c] in a row aligned with [cs]. *)
Definition row_get (cs : list string) (r : list cell) (c : string) : option cell :=
  match find (fun p => String.eqb (fst p) c) (combine cs r) with
  | Some p => Some (snd p)
  | None => None
  end.

(** [df[c].iloc[j]] *)
Definition cell_at (t : DataFrame) (j : nat) (c : string) : option cell :=
  r ← rows t !! j; row_get (cols t) r c.


(** *** pandas.read_csv on the raw catalog file *)

Definition is_ws (a : ascii) : bool :=
  (Ascii.eqb a " ") || (Ascii.eqb a (Ascii.ascii_of_nat 9)).

(** Splitting a line on runs of blanks ([sep="\\s+"]); leading and
    trailing blanks give no field. *)
Fixpoint split_ws (s : string) (acc : list ascii) : list string :=
  match s with
  | EmptyString =>
      match acc with [] => [] | _ => [string_of_list_ascii (rev acc)] end
  | String a s' =>
      if is_ws a then
        match acc with
        | [] => split_ws s' []
        | _ => string_of_list_ascii (rev acc) :: split_ws s' []
        end
      else split_ws s' (a :: acc)
  end.

(** pandas' default [na_values]: these tokens are read as NaN, also in the
    [dtype=str] column. *)
Definition default_na_values : list string :=
  ["-1.#IND"; "1.#QNAN"; "1.#IND"; "-1.#QNAN"; "#N/A N/A"; "#N/A"; "N/A";
   "n/a"; "NA"; "<NA>"; "#NA"; "NULL"; "null"; "NaN"; "-NaN"; "nan"; "-nan";
   "None"; ""].

Definition token_cell (tok : string) : cell :=
  if existsb (String.eqb tok) default_na_values then CNaN else CStr tok.

(** A short row is padded with NaN; with [index_col=False] a long row is
    cut to the names (pandas warns and drops the extra data). *)
Definition fit_row (n : nat) (r : list cell) : list cell :=
  firstn n r ++ repeat CNaN (n - length r).

(** The fields of the data lines: [skiprows=k], then blank lines skipped. *)
Definition data_rows (k : nat) (lines : list string) : list (list string) :=
  List.filter (fun r => negb (bool_decide (r = [])))
    (map (fun l => split_ws l []) (drop k lines)).

(** [read_csv(path, sep="\\s+", header=None, skiprows=k, names=names,
    index_col=False, dtype={'name': str})]:
    - duplicate [names] raise ValueError;
    - the first [k] lines are skipped, blank lines are skipped;
    - the tokenizer expects [max(fields of the first data row, len(names))]
      fields per line and raises ParserError (a ValueError) on a line with
      more ("Expected n fields in line l, saw m");
    - this is the tokenizer stage: every field is kept as its text (NA
      tokens as NaN); the column types are inferred by [infer_dtypes] below.
    Double-quote quoting is not modelled. *)
Definition read_table (names : list string) (k : nat) (lines : list string)
  : result DataFrame :=
  if decide (NoDup names) then
    let rs := data_rows k lines in
    let expected := match rs with
                    | [] => length names
                    | r :: _ => Nat.max (length r) (length names)
                    end in
    if existsb (fun r => Nat.ltb expected (length r)) rs then Err ValueError
    else Ok {| cols := names;
               rows := map (fun r => fit_row (length names) (map token_cell r)) rs |}
  else Err ValueError.

(** *** Type inference of the C parser

    With the default [low_memory=True] the C parser converts the tokens in
    chunks of [buffer_lines] rows.  In each chunk, each column (but [name],
    read with [dtype=str]) becomes int64 if all its non-NA tokens are
    integers, else float64 if they all are numbers, else bool if they all
    are among [true_values]/[false_values], else object (the text).  An
    int64 chunk with NA values is upcast to float64; a bool chunk with NA
    values becomes object ([True]/[False] and NaN).  The chunks are then
    concatenated column by column: int64 and float64 chunks give float64,
    any other mixture gives object, each value kept.  Integers outside
    the int64 range (pandas' uint64 path) are not modelled: such tokens are
    read as floats. *)

(** pandas' default [true_values] and [false_values] *)
Definition true_tokens : list string := ["True"; "TRUE"; "true"].
Definition false_tokens : list string := ["False"; "FALSE"; "false"].

Definition digit_of (a : ascii) : option Z :=
  let n := (Z.of_nat (nat_of_ascii a) - 48)%Z in
  if (0 <=? n)%Z && (n <=? 9)%Z then Some n else None.

Fixpoint digits_value (s : string) (acc : Z) : option Z :=
  match s with
  | EmptyString => Some acc
  | String a s' =>
      match digit_of a with
      | Some d => digits_value s' (acc * 10 + d)%Z
      | None => None
      end
  end.

Definition unsigned_int (s : string) : option Z :=
  match s with EmptyString => None | _ => digits_value s 0 end.

(** [str_to_int64]: an optional sign and at least one digit, in range. *)
Definition int_token (s : string) : option Z :=
  let v := match s with
           | String a s' =>
               if Ascii.eqb a "-" then Z.opp <$> unsigned_int s'
               else if Ascii.eqb a "+" then unsigned_int s'
               else unsigned_int s
           | EmptyString => None
           end in
  match v with
  | Some z => if (- 2 ^ 63 <=? z)%Z && (z <? 2 ^ 63)%Z then Some z else None
  | None => None
  end.

Definition has_value {A} (o : option A) : bool :=
  match o with Some _ => true | None => false end.

Definition is_nan (v : cell) : bool := match v with CNaN => true | _ => false end.

Definition cell_token (v : cell) : option string :=
  match v with CStr s => Some s | _ => None end.

(** The dtype a chunk of one column gets. *)
Inductive col_kind :=
| KInt        (* int64 *)
| KIntNA      (* int64 with NA values, upcast to float64 *)
| KFloat      (* float64 *)
| KBool       (* bool, or object when NA values are present *)
| KObject.    (* object: the text; also [dtype=str] *)

(** [_convert_tokens]: int64, else float64, else bool, else object. *)
Definition infer_kind (vs : list cell) : col_kind :=
  let toks := omap cell_token vs in
  if forallb (fun s => has_value (int_token s)) toks then
    (if existsb is_nan vs then KIntNA else KInt)
  else if forallb (fun s => has_value (csv_float s)) toks then KFloat
  else if forallb (fun s => existsb (String.eqb s) (true_tokens ++ false_tokens)) toks
  then KBool
  else KObject.

Definition convert_token (k : col_kind) (v : cell) : cell :=
  match v with
  | CStr s =>
      match k with
      | KInt => match int_token s with Some z => CInt z | None => v end
      | KIntNA => match int_token s with Some z => CNum (f_of_Z z) | None => v end
      | KFloat => match csv_float s with Some x => CNum x | None => v end
      | KBool => CBool (existsb (String.eqb s) true_tokens)
      | KObject => v
      end
  | _ => v
  end.

(** The dtypes of the columns [names] in a chunk of rows. *)
Definition chunk_kinds (names : list string) (rs : list (list cell)) : list col_kind :=
  imap (fun i c => if String.eqb c "name" then KObject
                   else infer_kind (map (fun r => nth i r CNaN) rs)) names.

Definition convert_chunk (ks : list col_kind) (rs : list (list cell)) : list (list cell) :=
  map (zip_with convert_token ks) rs.

(** [rs] cut into chunks of [b] rows ([b > 0]). *)
Fixpoint chunks_fuel {A} (fuel b : nat) (rs : list A) : list (list A) :=
  match fuel with
  | O => []
  | S f => match rs with
           | [] => []
           | _ => firstn b rs :: chunks_fuel f b (skipn b rs)
           end
  end.

Definition chunks {A} (b : nat) (rs : list A) : list (list A) :=
  chunks_fuel (length rs) (Nat.max 1 b) rs.

Fixpoint double_below (fuel : nat) (b h : Z) : Z :=
  match fuel with
  | O => b
  | S f => if (b * 2 <? h)%Z then double_below f (b * 2) h else b
  end.

(** [heuristic = 2**20 // table_width; buffer_lines = 1;
    while buffer_lines * 2 < heuristic: buffer_lines *= 2] *)
Definition buffer_lines (table_width : nat) : nat :=
  Z.to_nat (double_below 21 1 (2 ^ 20 / Z.of_nat table_width)).

Definition is_numeric_kind (k : col_kind) : bool :=
  match k with KInt | KIntNA | KFloat => true | _ => false end.

(** [_concatenate_chunks]: a column with int64 chunks and float64 chunks
    becomes float64. *)
Definition upcast_column (kss : list (list col_kind)) (i : nat) : bool :=
  let ks := map (fun ks => nth i ks KObject) kss in
  forallb is_numeric_kind ks && existsb (fun k => match k with KInt => false | _ => true end) ks.

Definition int_to_float (v : cell) : cell :=
  match v with CInt z => CNum (f_of_Z z) | _ => v end.

(** The column types of the table [read_table] tokenized, with chunks of
    [b] rows. *)
Definition infer_dtypes (b : nat) (t : DataFrame) : DataFrame :=
  let cks := chunks b (rows t) in
  let kss := map (chunk_kinds (cols t)) cks in
  let ups := imap (fun i _ => upcast_column kss i) (cols t) in
  {| cols := cols t;
     rows := map (zip_with (fun (u : bool) v => if u then int_to_float v else v) ups)
               (concat (map (fun ck => convert_chunk (chunk_kinds (cols t) ck) ck) cks)) |}.

(** [read_csv(...)] as a whole: [read_table], then the type inference;
    [table_width] is the field count of the first data row (the length of
    [names] without data), and a zero width raises EmptyDataError (a
    ValueError). *)
Definition pd_read_csv (names : list string) (k : nat) (lines : list string)
  : result DataFrame :=
  let! t := read_table names k lines in
  let table_width := match data_rows k lines with
                     | [] => length names
                     | r :: _ => length r
                     end in
  if Nat.eqb table_width 0 then Err ValueError
  else Ok (infer_dtypes (buffer_lines table_width) t).

(** *** The cleaning steps of [_transform_astdys_catalog] *)

(** [catalog.replace("'", '', regex=True)]: every quote is removed from
    every text cell (numbers and booleans are left alone). *)
Definition strip_quote_str (s : string) : string :=
  string_of_list_ascii (List.filter (fun a => negb (Ascii.eqb a "'"))
                          (list_ascii_of_string s)).

Definition strip_cell (v : cell) : cell :=
  match v with CStr s => CStr (strip_quote_str s) | _ => v end.

Definition strip_quotes (t : DataFrame) : DataFrame :=
  {| cols := cols t; rows := map (map strip_cell) (rows t) |}.

(** [col.startswith('del_')] *)
Definition is_del (c : string) : bool := String.prefix "del_" c.

(** [catalog.drop(columns=[c for c in catalog.columns if c.startswith('del_')])] *)
Definition drop_del (t : DataFrame) : DataFrame :=
  {| cols := List.filter (fun c => negb (is_del c)) (cols t);
     rows := map (fun r => map snd (List.filter (fun p => negb (is_del (fst p)))
                                      (combine (cols t) r))) (rows t) |}.

(** [astype(float)] on one cell: text through [float(s)], an integer
    or a boolean by its value ([True] is [1.0]). *)
Definition astype_float (v : cell) : option cell :=
  match v with
  | CStr s => CNum <$> py_float s
  | CNum x => Some (CNum x)
  | CInt z => Some (CNum (f_of_Z z))
  | CBool b => Some (CNum (f_of_Z (if b then 1 else 0)%Z))
  | CNaN => Some CNaN
  end.

(** The number a cell holds for a comparison: a float, or an integer or a
    boolean as a float (numpy compares them through float64). *)
Definition numeric_value (v : cell) : option F :=
  match v with
  | CNum x => Some x
  | CInt z => Some (f_of_Z z)
  | CBool b => Some (f_of_Z (if b then 1 else 0)%Z)
  | _ => None
  end.

(** [x * np.pi / 180] *)
Definition to_radians (x : F) : F := fdiv (fmul x f_pi) (f_of_Z 180).

Definition times_pi_180 (v : cell) : cell :=
  match v with CNum x => CNum (to_radians x) | _ => v end.

Definition convert_cell (v : cell) : option cell := times_pi_180 <$> astype_float v.

Definition set_row (cs : list string) (c : string) (r : list cell) : option (list cell) :=
  mapM (fun p => if String.eqb (fst p) c then convert_cell (snd p) else Some (snd p))
       (combine cs r).

(** [catalog[col] = catalog[col].astype(float) * np.pi / 180]: KeyError
    for a missing column, ValueError when one of its cells is not a number. *)
Definition convert_column (c : string) (t : DataFrame) : result DataFrame :=
  if existsb (String.eqb c) (cols t) then
    match mapM (set_row (cols t) c) (rows t) with
    | Some rs => Ok {| cols := cols t; rows := rs |}
    | None => Err ValueError
    end
  else Err KeyError.

(** [for col in degree_columns: ...] *)
Fixpoint convert_columns (cs : list string) (t : DataFrame) : result DataFrame :=
  match cs with
  | [] => Ok t
  | c :: cs' => let! t' := convert_column c t in convert_columns cs' t'
  end.

(** [catalog[names]] *)
Definition select_columns (names : list string) (t : DataFrame) : result DataFrame :=
  match mapM (fun r => mapM (row_get (cols t) r) names) (rows t) with
  | Some rs => Ok {| cols := names; rows := rs |}
  | None => Err KeyError
  end.

(** [if 'epoch' in catalog.columns: catalog = catalog[others + ['epoch']]] *)
Definition epoch_last (t : DataFrame) : result DataFrame :=
  if existsb (String.eqb "epoch") (cols t) then
    select_columns (List.filter (fun c => negb (String.eqb c "epoch")) (cols t) ++ ["epoch"]) t
  else Ok t.

End Tables.

Arguments cell F : clear implicits.
Arguments DataFrame F : clear implicits.

(** ** Catalog descriptors (src/astdys/catalog.py) *)

Record Catalog := {
  original_filename : string;
  filename : string;
  url : string;
  catalog_type_of : string;   (* the field [catalog_type] *)
  skip_rows : nat;
  columns : list string;
  degree_columns : list string
}.

Definition OSCULATING_CATALOG : Catalog := {|
  original_filename := "cache/allnum.cat";
  filename := "cache/allnum.csv";
  url := "https://newton.spacedys.com/~astdys2/catalogs/allnum.cat";
  catalog_type_of := "osculating";
  skip_rows := 6;
  columns := ["name"; "epoch"; "a"; "e"; "inc"; "Omega"; "omega"; "M";
              "del_1"; "del_2"; "del_3"];
  degree_columns := ["inc"; "Omega"; "omega"; "M"]
|}.

Definition SYNTHETIC_CATALOG : Catalog := {|
  original_filename := "cache/all.syn";
  filename := "cache/allsyn.csv";
  url := "https://newton.spacedys.com/~astdys2/propsynth/all.syn";
  catalog_type_of := "synthetic";
  skip_rows := 2;
  columns := ["name"; "mag"; "a"; "e"; "sinI"; "n"; "g"; "s"; "lce"; "my"];
  degree_columns := ["sinI"; "n"]
|}.

Section Transform.
Context {F : Type} `{FO : FloatOps F}.

(** [AstDys._transform_astdys_catalog], on the lines of the raw file. *)
Definition transform_astdys_catalog (cfg : Catalog) (lines : list string)
  : result (DataFrame F) :=
  let! t0 := pd_read_csv (columns cfg) (skip_rows cfg) lines in
  let t2 := drop_del (strip_quotes t0) in
  let! t3 := convert_columns (degree_columns cfg) t2 in
  epoch_last t3.

End Transform.

(** ** A concrete interpretation of the float operations

    Decimal literals as rationals: enough to evaluate the code on sample
    rows (the theorems below hold for every [FloatOps]). *)
Module QFloat.

Definition digit_val (a : ascii) : option Z :=
  let n := (Z.of_nat (nat_of_ascii a) - 48)%Z in
  if (0 <=? n)%Z && (n <=? 9)%Z then Some n else None.

(** [d+] or [d+.d+] with an optional leading minus sign. *)
Fixpoint parse_digits (s : string) (acc : Z) (scale : Z) (seen_dot : bool)
  : option (Z * Z) :=
  match s with
  | EmptyString => Some (acc, scale)
  | String a s' =>
      if Ascii.eqb a "." then
        if seen_dot then None else parse_digits s' acc scale true
      else
        match digit_val a with
        | Some d => parse_digits s' (acc * 10 + d)%Z
                      (if seen_dot then scale * 10 else scale)%Z seen_dot
        | None => None
        end
  end.

Definition parse_unsigned (s : string) : option Q :=
  match s with
  | EmptyString => None
  | _ => match parse_digits s 0 1 false with
         | Some (n, d) => Some (n # Z.to_pos d)
         | None => None
         end
  end.

Definition parse_decimal (s : string) : option Q :=
  match s with
  | String a s' => if Ascii.eqb a "-" then Qopp <$> parse_unsigned s'
                   else parse_unsigned s
  | EmptyString => None
  end.

#[export] Instance Q_float : FloatOps Q := {|
  f_of_Z := inject_Z;
  f_pi := 355 # 113;
  fadd := Qplus;
  fsub := Qminus;
  fmul := Qmult;
  fdiv := Qdiv;
  fle := Qle_bool;
  py_float := parse_decimal;
  csv_float := parse_decimal
|}.

End QFloat.

(** ** The catalog store: class attributes of [AstDys] and the file system *)

(** pandas' [dtype=] argument; [load] passes [{'name': str}]. *)
Inductive dtype := DStr.

(** The collaborators the code calls but does not define: pandas' CSV
    writer and reader and [urllib.request.urlretrieve]. *)
Record Externals (F : Type) := {
  (** [DataFrame.to_csv(path, index=False)]: the lines written *)
  to_csv : DataFrame F -> list string;
  (** [pd.read_csv(path, dtype=...)] on the lines of a CSV file *)
  read_csv : list (string * dtype) -> list string -> result (DataFrame F);
  (** [urlretrieve(url, path)]: given the current content of [path], the
      content it leaves there and whether it returned normally *)
  urlretrieve : string -> option (list string) -> option (list string) * bool
}.
Arguments to_csv {F} _ _.
Arguments read_csv {F} _ _ _.
Arguments urlretrieve {F} _ _ _.

Section Store.
Context {F : Type} `{FO : FloatOps F} (X : Externals F).

(** The class attributes [catalogs], [catalogs_configs], [catalog_type] and
    the files under the working directory (paths are the relative names of
    the descriptors; [Path.cwd() / name] is the same file). *)
Record State := {
  catalogs : gmap string (DataFrame F);
  catalogs_configs : gmap string Catalog;
  catalog_type : string;
  files : gmap string (list string)
}.

(** Python statements run until an exception; what they changed before it
    stays changed. *)
Definition M (A : Type) : Type := State -> result A * State.

Definition ret {A} (a : A) : M A := fun s => (Ok a, s).
Definition raise {A} (e : py_error) : M A := fun s => (Err e, s).
Definition bind {A B} (m : M A) (k : A -> M B) : M B :=
  fun s => match m s with
           | (Ok a, s') => k a s'
           | (Err e, s') => (Err e, s')
           end.
Definition lift {A} (r : result A) : M A := fun s => (r, s).
Definition gets {A} (f : State -> A) : M A := fun s => (Ok (f s), s).

Notation "'let?' x := m 'in' k" := (bind m (fun x => k))
  (at level 200, x name, m at level 100, k at level 200).

Definition set_catalog_type (k : string) : M unit :=
  fun s => (Ok tt, {| catalogs := catalogs s; catalogs_configs := catalogs_configs s;
                      catalog_type := k; files := files s |}).

(** [cls.catalogs[cls.catalog_type] = t] *)
Definition store_catalog (t : DataFrame F) : M unit :=
  fun s => (Ok tt, {| catalogs := <[catalog_type s := t]> (catalogs s);
                      catalogs_configs := catalogs_configs s;
                      catalog_type := catalog_type s; files := files s |}).

Definition write_file (p : string) (f : option (list string)) : M unit :=
  fun s => (Ok tt, {| catalogs := catalogs s; catalogs_configs := catalogs_configs s;
                      catalog_type := catalog_type s;
                      files := match f with
                               | Some c => <[p := c]> (files s)
                               | None => delete p (files s)
                               end |}).

(** [Path(p).exists()] *)
Definition path_exists (p : string) : M bool :=
  gets (fun s => bool_decide (is_Some (files s !! p))).

(** [open(p)] inside pandas' readers *)
Definition read_file (p : string) : M (list string) :=
  fun s => match files s !! p with
           | Some c => (Ok c, s)
           | None => (Err FileNotFoundError, s)
           end.

(** [AstDys._catalog] *)
Definition _catalog : M (option (DataFrame F)) :=
  gets (fun s => catalogs s !! catalog_type s).

(** [AstDys._catalog_config] *)
Definition _catalog_config : M (option Catalog) :=
  gets (fun s => catalogs_configs s !! catalog_type s).

(** [cls._catalog_config().field]: AttributeError on None *)
Definition config_field {A} (f : Catalog -> A) : M A :=
  let? c := _catalog_config in
  match c with Some cfg => ret (f cfg) | None => raise AttributeError end.

Definition _astdys_full_filename : M string := config_field original_filename.
Definition _catalog_full_filename : M string := config_field filename.

(** [AstDys._transform_astdys_catalog] *)
Definition _transform_astdys_catalog : M (DataFrame F) :=
  let? p := _astdys_full_filename in
  let? lines := read_file p in
  let? cfg := _catalog_config in
  match cfg with
  | Some cfg => lift (transform_astdys_catalog cfg lines)
  | None => raise AttributeError
  end.

(** [urllib.request.urlretrieve(url, original_filename)] inside [try]; any
    exception becomes the bare [Exception] "Cannot download ...". *)
Definition download (u p : string) : M unit :=
  fun s => let (after, ok) := urlretrieve X u (files s !! p) in
           match write_file p after s with
           | (_, s') => (if ok then Ok tt else Err DownloadError, s')
           end.

(** [AstDys._build] *)
Definition _build : M unit :=
  let? input := _astdys_full_filename in
  let? ex := path_exists input in
  let? _ := (if ex then ret tt
             else let? u := config_field url in
                  let? p := config_field original_filename in
                  download u p) in
  let? cat := _transform_astdys_catalog in
  let? out := _catalog_full_filename in
  write_file out (Some (to_csv X cat)).

(** [cls.catalogs[cls.catalog_type] = pd.read_csv(filename, dtype={'name': str})] *)
Definition read_cached (fname : string) : M unit :=
  let? contents := read_file fname in
  let? t := lift (read_csv X [("name", DStr)] contents) in
  store_catalog t.

(** [AstDys.load] *)
Definition load : M unit :=
  let? fname := _catalog_full_filename in
  let? cur := _catalog in
  let? _ := (match cur with
             | None => let? ex := path_exists fname in
                       if ex then ret tt else _build
             | Some _ => ret tt
             end) in
  read_cached fname.

(** [load()] as the spec words it: build whenever the cached CSV is
    missing, then read it (no test of an in-memory table). *)
Definition load_as_claimed : M unit :=
  let? fname := _catalog_full_filename in
  let? ex := path_exists fname in
  let? _ := (if ex then ret tt else _build) in
  read_cached fname.

(** [AstDys.rebuild] *)
Definition rebuild : M unit :=
  let? p := _astdys_full_filename in
  let? ex := path_exists p in
  let? _ := (if ex then write_file p None else ret tt) in
  _build.

(** [AstDys.set_type] *)
Definition set_type (k : string) : M unit :=
  let? cfgs := gets catalogs_configs in
  if bool_decide (is_Some (cfgs !! k)) then
    let? _ := set_catalog_type k in load
  else raise ValueError.

(** [if cls._catalog() is None: cls.load()] *)
Definition ensure_loaded : M unit :=
  let? cur := _catalog in
  match cur with None => load | Some _ => ret tt end.

(** [cls._catalog()] used as a DataFrame: [None[...]] is a TypeError. *)
Definition current_table : M (DataFrame F) :=
  let? cur := _catalog in
  match cur with Some t => ret t | None => raise TypeError end.

(** [AstDys.get_catalog] *)
Definition get_catalog : M (option (DataFrame F)) :=
  let? _ := ensure_loaded in _catalog.


(** *** Queries *)

(** The identifiers [search] accepts: an [int], a [str], or a list of them. *)
Inductive ident := IInt (z : Z) | IStr (s : string).
Inductive search_arg := One (i : ident) | Many (ids : list ident).

(** [str(identifier)]: Python's decimal rendering of an int. *)
Definition py_str (i : ident) : string :=
  match i with
  | IInt z => NilZero.string_of_int (Z.to_int z)
  | IStr s => s
  end.

(** A single row ([matches.iloc[0].to_dict()]) or the batch mapping. *)
Inductive search_result :=
| Single (r : option (list (string * cell F)))
| Batch (m : gmap string (list (string * cell F))).

(** [row['name'] == name_str] *)
Definition name_is (v : option (cell F)) (s : string) : bool :=
  match v with Some (CStr s') => String.eqb s' s | _ => false end.

(** [row['name'] in name_list] ([Series.isin]) *)
Definition name_in (v : option (cell F)) (l : list string) : bool :=
  match v with Some (CStr s') => existsb (String.eqb s') l | _ => false end.

(** [{row['name']: row.to_dict() for _, row in filtered.iterrows()}] *)
Definition rows_to_dict (cs : list string) (rs : list (list (cell F)))
  : gmap string (list (string * cell F)) :=
  fold_left (fun m r => match row_get cs r "name" with
                        | Some (CStr s) => <[s := combine cs r]> m
                        | _ => m
                        end) rs ∅.

(** [AstDys.search] *)
Definition search (arg : search_arg) : M search_result :=
  let? _ := ensure_loaded in
  match arg with
  | One i =>
      let name_str := py_str i in
      let? t := current_table in
      if existsb (String.eqb "name") (cols t) then
        match List.filter (fun r => name_is (row_get (cols t) r "name") name_str) (rows t) with
        | r :: _ => ret (Single (Some (combine (cols t) r)))
        | [] => ret (Single None)
        end
      else raise KeyError
  | Many ids =>
      let name_list := map py_str ids in
      let? t := current_table in
      if existsb (String.eqb "name") (cols t) then
        ret (Batch (rows_to_dict (cols t)
               (List.filter (fun r => name_in (row_get (cols t) r "name") name_list) (rows t))))
      else raise KeyError
  end.

(** [(df['a'] >= min_axis) & (df['a'] <= max_axis)] on a cell: a float by
    its value, an integer or a boolean through its float value; NaN
    compares false. *)
Definition a_in_range (lo hi : F) (v : option (cell F)) : bool :=
  match v with
  | Some c => match numeric_value c with
              | Some x => fle lo x && fle x hi
              | None => false
              end
  | None => false
  end.

(** A text cell in column ['a'] makes the comparison a TypeError. *)
Definition a_is_text (v : option (cell F)) : bool :=
  match v with Some (CStr _) => true | _ => false end.

(** [AstDys.search_by_axis] *)
Definition search_by_axis (axis sigma : F) : M (DataFrame F) :=
  if fle axis (f_of_Z 0) then raise ValueError
  else if fle sigma (f_of_Z 0) then raise ValueError
  else
    let? _ := ensure_loaded in
    let min_axis := fsub axis sigma in
    let max_axis := fadd axis sigma in
    let? t := current_table in
    if existsb (String.eqb "a") (cols t) then
      if existsb (fun r => a_is_text (row_get (cols t) r "a")) (rows t) then raise TypeError
      else ret {| cols := cols t;
                  rows := List.filter (fun r => a_in_range min_axis max_axis
                                                  (row_get (cols t) r "a")) (rows t) |}
    else raise KeyError.

End Store.

Arguments State F : clear implicits.
Arguments M F A : clear implicits.

(** ** [util.convert_mjd_to_datetime] on Python's datetime arithmetic *)

Module PyDateTime.
Local Open Scope Z_scope.

(** [datetime.datetime] fields (tzinfo is None). *)
Record datetime := {
  year : Z; month : Z; day : Z;
  hour : Z; minute : Z; second : Z; microsecond : Z
}.

(** [datetime.datetime(1858, 11, 17)] *)
Definition base_date : datetime :=
  {| year := 1858; month := 11; day := 17;
     hour := 0; minute := 0; second := 0; microsecond := 0 |}.

(** Python compares datetimes as the tuple of their fields. *)
Fixpoint lex_le (a b : list Z) : bool :=
  match a, b with
  | x :: a', y :: b' => (x <? y) || ((x =? y) && lex_le a' b')
  | _, _ => true
  end.

Fixpoint lex_lt (a b : list Z) : bool :=
  match a, b with
  | x :: a', y :: b' => (x <? y) || ((x =? y) && lex_lt a' b')
  | _, _ => false
  end.

Definition fields (d : datetime) : list Z :=
  [year d; month d; day d; hour d; minute d; second d; microsecond d].

(** [d1 <= d2] *)
Definition dt_le (d1 d2 : datetime) : bool := lex_le (fields d1) (fields d2).

(** The proleptic Gregorian calendar of [datetime.py]. *)
Definition MAXORDINAL : Z := 3652059.
Definition DI400Y : Z := 146097.
Definition DI100Y : Z := 36524.
Definition DI4Y : Z := 1461.

Definition is_leap (y : Z) : bool :=
  (y mod 4 =? 0) && (negb (y mod 100 =? 0) || (y mod 400 =? 0)).

(** [_DAYS_IN_MONTH] and [_DAYS_BEFORE_MONTH] (index 0 unused) *)
Definition DAYS_IN_MONTH (m : Z) : Z :=
  nth (Z.to_nat m) [-1; 31; 28; 31; 30; 31; 30; 31; 31; 30; 31; 30; 31] 0.
Definition DAYS_BEFORE_MONTH (m : Z) : Z :=
  nth (Z.to_nat m) [-1; 0; 31; 59; 90; 120; 151; 181; 212; 243; 273; 304; 334] 0.

Definition days_before_year (y : Z) : Z :=
  let y' := y - 1 in y' * 365 + y' / 4 - y' / 100 + y' / 400.

Definition days_before_month (y m : Z) : Z :=
  DAYS_BEFORE_MONTH m + (if (2 <? m) && is_leap y then 1 else 0).

(** [_ymd2ord] *)
Definition ymd2ord (y m d : Z) : Z := days_before_year y + days_before_month y m + d.

(** [_ord2ymd] after its first [divmod(n, _DI400Y)]: the date of day [n]
    (0-based) of a 400-year cycle, years counted from 1. *)
Definition ord2ymd_cycle (n : Z) : Z * Z * Z :=
  let n100 := n / DI100Y in let n := n mod DI100Y in
  let n4 := n / DI4Y in let n := n mod DI4Y in
  let n1 := n / 365 in let n := n mod 365 in
  let year := 1 + n100 * 100 + n4 * 4 + n1 in
  if (n1 =? 4) || (n100 =? 4) then (year - 1, 12, 31)
  else
    let leapyear := (n1 =? 3) && (negb (n4 =? 24) || (n100 =? 3)) in
    let month := Z.shiftr (n + 50) 5 in
    let preceding := DAYS_BEFORE_MONTH month +
                     (if (2 <? month) && leapyear then 1 else 0) in
    if n <? preceding then
      let month := month - 1 in
      let preceding := preceding - (DAYS_IN_MONTH month +
                         (if (month =? 2) && leapyear then 1 else 0)) in
      (year, month, n - preceding + 1)
    else (year, month, n - preceding + 1).

(** [_ord2ymd] *)
Definition ord2ymd (n : Z) : Z * Z * Z :=
  let n := n - 1 in
  let n400 := n / DI400Y in
  match ord2ymd_cycle (n mod DI400Y) with
  | (y, m, d) => (n400 * 400 + y, m, d)
  end.

Definition US_PER_DAY : Z := 86400000000.

(** Round half to even, as [timedelta] rounds fractional microseconds. *)
Definition round_half_even (q : Q) : Z :=
  let fl := Qfloor q in
  match Qcompare (q - inject_Z fl) (1 # 2) with
  | Lt => fl
  | Gt => fl + 1
  | Eq => if Z.even fl then fl else fl + 1
  end.

(** [modf] on the exact value of a double: the integral part, truncated
    toward zero. *)
Definition trunc (q : Q) : Z :=
  if Qle_bool 0 q then Qfloor q else - Qfloor (- q).

(** [2.0 ** e] *)
Definition pow2 (e : Z) : Q := Qpower (inject_Z 2) e.

(** The exponent of the binary64 value nearest to [x > 0]: the [e] with
    [2^(e+52) <= x < 2^(e+53)], or [-1074] for the subnormal range. *)
Definition fexp (x : Q) : Z :=
  let e0 := Z.log2 (Qnum x) - Z.log2 (Zpos (Qden x)) - 52 in
  let e1 := if Qle_bool (pow2 (e0 + 52)) x then e0 else e0 - 1 in
  Z.max e1 (-1074).

(** Rounding of [x > 0] to binary64, to nearest with ties to even. *)
Definition round_pos (x : Q) : Q :=
  let e := fexp x in Qred (inject_Z (round_half_even (x / pow2 e)) * pow2 e)%Q.

(** The double an IEEE-754 multiplication returns for the exact product [x]
    (round to nearest, ties to even; no overflow, as the products below stay
    under [86400e6] in absolute value). *)
Definition round_double (x : Q) : Q :=
  match Qcompare x 0 with
  | Eq => 0
  | Gt => round_pos x
  | Lt => (- round_pos (- x))%Q
  end.

(** The microseconds CPython's [delta_new] computes for
    [timedelta(days=days)] (its [accum] and [leftover] rounding): the
    integral part of the float times [86400 * 10**6] exactly, plus the
    double product [86400e6 * fracpart], split again by [modf]; the
    fractional leftover is rounded half to even. *)
Definition timedelta_us (days : Q) : Z :=
  let ip := trunc days in
  let fp := (days - inject_Z ip)%Q in
  let s := ip * US_PER_DAY in
  if Qeq_bool fp 0 then s
  else
    let p := round_double (inject_Z US_PER_DAY * fp)%Q in
    let ip2 := trunc p in
    let leftover := (p - inject_Z ip2)%Q in
    let x := s + ip2 in
    if Qeq_bool leftover 0 then x
    else round_half_even (inject_Z x + leftover)%Q.

(** The microseconds of [timedelta_us], read as one rounding. *)
Definition td_sum (days : Q) : Q :=
  (inject_Z (trunc days * US_PER_DAY)
   + round_double (inject_Z US_PER_DAY * (days - inject_Z (trunc days))))%Q.

(** [datetime.timedelta(days=mjd)], as its total microseconds
    ([timedelta_us] of the exact value of the float argument); OverflowError
    when the normalised [days] exceeds [999999999] in absolute value. *)
Definition timedelta_days (days : Q) : result Z :=
  let us := timedelta_us days in
  if 999999999 <? Z.abs (us / US_PER_DAY) then Err OverflowError else Ok us.

(** [d + delta]: the sum is normalised through the ordinal of the date;
    OverflowError ("date value out of range") outside years 1..9999. *)
Definition add_timedelta (b : datetime) (delta_us : Z) : result datetime :=
  let t := ((ymd2ord (year b) (month b) (day b) - 1) * 86400 + hour b * 3600
            + minute b * 60 + second b) * 1000000 + microsecond b + delta_us in
  let ord := t / US_PER_DAY + 1 in
  let rem := t mod US_PER_DAY in
  if (ord <? 1) || (MAXORDINAL <? ord) then Err OverflowError
  else
    match ord2ymd ord with
    | (y, m, d) =>
        let secs := rem / 1000000 in
        Ok {| year := y; month := m; day := d;
              hour := secs / 3600; minute := (secs mod 3600) / 60;
              second := secs mod 60; microsecond := rem mod 1000000 |}
    end.

(** [convert_mjd_to_datetime(mjd)] *)
Definition convert_mjd_to_datetime (mjd : Q) : result datetime :=
  let! delta := timedelta_days mjd in add_timedelta base_date delta.

(** Executable form of the step check over one 400-year cycle: the days
    [r, r+1, ..., r+k] of a cycle have strictly increasing dates. *)
Fixpoint cycle_steps_ok (k : nat) (r : Z) : bool :=
  match k with
  | O => true
  | S k' =>
      let '(y1, m1, d1) := ord2ymd_cycle r in
      let '(y2, m2, d2) := ord2ymd_cycle (r + 1) in
      lex_lt [y1; m1; d1] [y2; m2; d2] && cycle_steps_ok k' (r + 1)
  end.

(** What C8 asks for: the MJD zero point and monotonicity for all inputs. *)
Definition mjd_claim_as_stated : Prop :=
  convert_mjd_to_datetime 0 = Ok base_date /\
  forall m1 m2 : Q, (m1 <= m2)%Q ->
    exists d1 d2, convert_mjd_to_datetime m1 = Ok d1 /\
                  convert_mjd_to_datetime m2 = Ok d2 /\ dt_le d1 d2 = true.

End PyDateTime.

(** ** Sample inputs

    Concrete catalog text, tables, a store and its external effects, used
    below to evaluate the statements on actual data.  Floats are the
    rationals of [QFloat]. *)
Module Examples.
Import QFloat.

Definition sample_header : list string :=
  ["format  = 'OEF2.0'"; "rectype = 'ML'"; "elem    = 'KEP'";
   "refsys  = ECLM J2000"; "END_OF_HEADER";
   "! Name, Epoch(MJD), a(AU), e, i(deg), node(deg), peri(deg), M(deg), H, G, dummy"].

(** Two well-formed osculating rows (names and one anomaly quoted). *)
Definition sample_raw : list string :=
  sample_header ++
  ["'1' 59200 2.7658 0.0785 10.5 80.25 73.5 291.25 3.54 0.12 0";
   "'2' 59200 2.77 0.23 34.8 173 310.2 '23.5' 4.2 0.11 0"].



(** A non-numeric inclination. *)
Definition sample_bad_raw : list string :=
  sample_header ++
  ["'1' 59200 2.7658 0.0785 ten 80.25 73.5 291.25 3.54 0.12 0"].





(** A table as [read_csv] gives it back. *)
Definition sample_table : DataFrame Q := {|
  cols := ["name"; "a"];
  rows := [[CStr "1"; CNum (27658 # 10000)];
           [CStr "2"; CNum (277 # 100)];
           [CStr "433"; CNum (14582 # 10000)]] |}.

(** Two rows named "1". *)
Definition sample_dup_table : DataFrame Q := {|
  cols := ["name"; "a"];
  rows := [[CStr "5"; CNum (3 # 1)];
           [CStr "1"; CNum (27658 # 10000)];
           [CStr "1"; CNum (29 # 10)]] |}.

(** File output is a fixed text, file input gives [sample_table], and the
    network is unreachable ([urlretrieve] raises, leaving the file as it
    was). *)
Definition X0 : Externals Q := {|
  to_csv := fun _ => ["name,a"];
  read_csv := fun _ lines => match lines with
                             | [] => Err ValueError
                             | _ => Ok sample_table
                             end;
  urlretrieve := fun _ cur => (cur, false)
|}.

Definition sample_configs : gmap string Catalog :=
  <["osculating" := OSCULATING_CATALOG]> (<["synthetic" := SYNTHETIC_CATALOG]> ∅).

(** The osculating table in memory, its raw file on disk, no cached CSV. *)
Definition sample_state : State Q := {|
  catalogs := <["osculating" := sample_table]> ∅;
  catalogs_configs := sample_configs;
  catalog_type := "osculating";
  files := <["cache/allnum.cat" := sample_raw]> ∅
|}.

(** Nothing in memory, the raw osculating file on disk. *)
Definition fresh_state : State Q := {|
  catalogs := ∅;
  catalogs_configs := sample_configs;
  catalog_type := "osculating";
  files := <["cache/allnum.cat" := sample_raw]> ∅
|}.

(** Nothing in memory, no files. *)
Definition empty_state : State Q := {|
  catalogs := ∅;
  catalogs_configs := sample_configs;
  catalog_type := "osculating";
  files := ∅
|}.

(** The table with duplicate names in memory. *)
Definition dup_state : State Q := {|
  catalogs := <["osculating" := sample_dup_table]> ∅;
  catalogs_configs := sample_configs;
  catalog_type := "osculating";
  files := ∅
|}.

End Examples.

(** ** [util.convert_mjd_to_date]: [strftime("%Y-%m-%d %H:%M:%S")] *)

Module PyStrftime.
Import PyDateTime.
Local Open Scope Z_scope.

(** [_days_in_month] of [datetime.py] *)
Definition days_in_month (y m : Z) : Z :=
  if (m =? 2) && is_leap y then 29 else DAYS_IN_MONTH m.

(** The range checks of the [datetime] constructor ([_check_date_fields]
    and [_check_time_fields], MINYEAR = 1, MAXYEAR = 9999). *)
Definition check_fields (d : datetime) : bool :=
  (1 <=? year d) && (year d <=? 9999) &&
  (1 <=? month d) && (month d <=? 12) &&
  (1 <=? day d) && (day d <=? days_in_month (year d) (month d)) &&
  (0 <=? hour d) && (hour d <=? 23) && (0 <=? minute d) && (minute d <=? 59) &&
  (0 <=? second d) && (second d <=? 59) &&
  (0 <=? microsecond d) && (microsecond d <=? 999999).

Definition digit (n : Z) : ascii := ascii_of_nat (48 + Z.to_nat (n mod 10)).

(** The last [w] decimal digits of [n >= 0], zero-padded. *)
Fixpoint pad (w : nat) (n : Z) : string :=
  match w with
  | O => EmptyString
  | S w' => pad w' (n / 10) ++ String (digit n) EmptyString
  end.

(** [dt.strftime("%Y-%m-%d %H:%M:%S")]: [%Y] is the year on four digits
    (zero-padded; for years below 1000 the padding depends on the C library
    and the Python version), the other fields on two. *)
Definition strftime_ymdhms (d : datetime) : string :=
  pad 4 (year d) ++ "-" ++ pad 2 (month d) ++ "-" ++ pad 2 (day d) ++ " " ++
  pad 2 (hour d) ++ ":" ++ pad 2 (minute d) ++ ":" ++ pad 2 (second d).

(** [convert_mjd_to_date(mjd)] *)
Definition convert_mjd_to_date (mjd : Q) : result string :=
  let! dt := convert_mjd_to_datetime mjd in Ok (strftime_ymdhms dt).

(** [int(s)] on a non-empty string of ASCII digits; [None] on any other
    string. *)
Fixpoint digits_value (s : string) (acc : Z) : option Z :=
  match s with
  | EmptyString => Some acc
  | String a s' =>
      match QFloat.digit_val a with
      | Some d => digits_value s' (acc * 10 + d)
      | None => None
      end
  end.

Definition int_of_digits (s : string) : option Z :=
  match s with EmptyString => None | _ => digits_value s 0 end.

(** Executable form of the calendar check over one 400-year cycle: the
    days [r, ..., r+k-1] of a cycle have a month in 1..12 and a day within
    the month. *)
Fixpoint cycle_dates_ok (k : nat) (r : Z) : bool :=
  match k with
  | O => true
  | S k' =>
      let '(y, m, d) := ord2ymd_cycle r in
      (1 <=? m) && (m <=? 12) && (1 <=? d) && (d <=? days_in_month y m) &&
      cycle_dates_ok k' (r + 1)
  end.

End PyStrftime.

(** ** [AstDys.get_catalog_datetime] and [AstDys.get_catalog_time] *)

Section CatalogEpoch.
Context {F : Type} `{FO : FloatOps F} (X : Externals F).
(** The exact value of a float. *)
Variable float_value : F -> Q.

Local Notation "'let?' x := m 'in' k" := (bind m (fun x => k))
  (at level 200, x name, m at level 100, k at level 200).

(** [d[k]] on the dict [row.to_dict()] given as its pairs: for a repeated
    key the later pair wins. *)
Definition dict_get (k : string) (d : list (string * cell F)) : option (cell F) :=
  match find (fun p => String.eqb (fst p) k) (rev d) with
  | Some p => Some (snd p)
  | None => None
  end.

(** [datetime.timedelta(days=v)] on a cell: a float is taken by its
    value, an integer (or a boolean, an [int] subclass) exactly; NaN raises
    ValueError (it has no integer part), text TypeError. *)
Definition timedelta_arg (v : cell F) : result Q :=
  match v with
  | CNum x => Ok (float_value x)
  | CInt z => Ok (inject_Z z)
  | CBool b => Ok (inject_Z (if b then 1 else 0)%Z)
  | CNaN => Err ValueError
  | CStr _ => Err TypeError
  end.

(** The steps [get_catalog_time] and [get_catalog_datetime] share: the
    catalog type check, the implicit load, [elems = cls.search(1)] and
    [elems["epoch"]]. *)
Definition catalog_epoch : M F (cell F) :=
  let? k := gets catalog_type in
  if negb (String.eqb k "osculating") then raise ValueError
  else
    let? _ := ensure_loaded X in
    let? elems := search X (One (IInt 1)) in
    match elems with
    | Single (Some d) =>
        match dict_get "epoch" d with
        | Some v => ret v
        | None => raise ValueError
        end
    | _ => raise ValueError  (* [elems is None]; [search(1)] gives no batch *)
    end.

(** [AstDys.get_catalog_datetime] *)
Definition get_catalog_datetime : M F PyDateTime.datetime :=
  let? v := catalog_epoch in
  lift (let! q := timedelta_arg v in PyDateTime.convert_mjd_to_datetime q).

(** [AstDys.get_catalog_time] *)
Definition get_catalog_time : M F string :=
  let? v := catalog_epoch in
  lift (let! q := timedelta_arg v in PyStrftime.convert_mjd_to_date q).

End CatalogEpoch.

Section TableProperties.
Context {F : Type}.

(** No text cell of any row contains a quote mark. *)
Definition quote_free (t : DataFrame F) : Prop :=
  forall r s, In r (rows t) -> In (CStr s) r -> ~ In "'"%char (list_ascii_of_string s).

End TableProperties.

Module ExtraExamples.
Import QFloat Examples.

(** As [X0], but the download succeeds and leaves [sample_raw]. *)
Definition X_online : Externals Q := {|
  to_csv := fun _ => ["name,a"];
  read_csv := fun _ lines => match lines with
                             | [] => Err ValueError
                             | _ => Ok sample_table
                             end;
  urlretrieve := fun _ _ => (Some sample_raw, true)
|}.

(** Floats as rationals are their own value. *)
Definition q_value (q : Q) : Q := q.

(** An osculating table with epochs; the row named "1" comes second. *)
Definition epoch_table : DataFrame Q := {|
  cols := ["name"; "a"; "epoch"];
  rows := [[CStr "2"; CNum (277 # 100); CNum (59000 # 1)];
           [CStr "1"; CNum (27658 # 10000); CNum (59215 # 1)];
           [CStr "1"; CNum (29 # 10); CNum (60000 # 1)]] |}.

Definition epoch_state : State Q := {|
  catalogs := <["osculating" := epoch_table]> ∅;
  catalogs_configs := sample_configs;
  catalog_type := "osculating";
  files := ∅
|}.

(** [sample_state] with the synthetic catalog selected. *)
Definition synthetic_state : State Q := {|
  catalogs := <["osculating" := sample_table]> ∅;
  catalogs_configs := sample_configs;
  catalog_type := "synthetic";
  files := <["cache/allnum.cat" := sample_raw]> ∅
|}.

End ExtraExamples.

(** ** Lemmas about the table steps *)

Section TableLemmas.
Context {F : Type} `{FO : FloatOps F}.

Lemma row_get_cons (c0 c : string) (cs : list string) (v : cell F) (r : list (cell F)) :
  row_get (c0 :: cs) (v :: r) c = if String.eqb c0 c then Some v else row_get cs r c.
Proof. unfold row_get; simpl. destruct (String.eqb c0 c); reflexivity. Qed.


Lemma row_get_nil_r (cs : list string) c : row_get cs (@nil (cell F)) c = None.
Proof. unfold row_get. destruct cs; reflexivity. Qed.


Lemma row_get_notin (cs : list string) (r : list (cell F)) c :
  ~ In c cs -> row_get cs r c = None.
Proof.
  revert r; induction cs as [|c0 cs IH]; intros [|v r] Hin; simpl in *;
    try reflexivity; try apply row_get_nil_r.
  rewrite row_get_cons. destruct (String.eqb c0 c) eqn:E.
  - apply String.eqb_eq in E. tauto.
  - apply IH. tauto.
Qed.








End TableLemmas.

Section ConvertLemmas.
Context {F : Type} `{FO : FloatOps F}.








End ConvertLemmas.

Section ColumnLemmas.
Context {F : Type} `{FO : FloatOps F}.

Lemma existsb_eqb_In (c : string) (cs : list string) :
  existsb (String.eqb c) cs = true <-> In c cs.
Proof.
  rewrite existsb_exists. split.
  - intros [x [Hx E]]. apply String.eqb_eq in E. subst. exact Hx.
  - intros H. exists c. split; [exact H|apply String.eqb_refl].
Qed.








End ColumnLemmas.

Section SelectLemmas.
Context {F : Type} `{FO : FloatOps F}.













End SelectLemmas.

(** ** Claims about the catalog transform *)

Section TransformClaims.
Context {F : Type} `{FO : FloatOps F}.


End TransformClaims.

Section FieldCountClaims.
Context {F : Type} `{FO : FloatOps F}.


End FieldCountClaims.

(** ** Lemmas about the date arithmetic *)

Module DateTimeFacts.
Import PyDateTime.
Local Open Scope Z_scope.

Ltac lex_unfold :=
  simpl lex_lt in *; simpl lex_le in *;
  repeat first [rewrite Bool.orb_true_iff in * | rewrite Bool.andb_true_iff in *
               | rewrite Z.ltb_lt in * | rewrite Z.eqb_eq in *].

Lemma lex_lt3_trans a1 a2 a3 b1 b2 b3 c1 c2 c3 :
  lex_lt [a1; a2; a3] [b1; b2; b3] = true -> lex_lt [b1; b2; b3] [c1; c2; c3] = true ->
  lex_lt [a1; a2; a3] [c1; c2; c3] = true.
Proof. intros H1 H2. lex_unfold. lia. Qed.

Lemma cycle_steps_ok_spec (k : nat) (r : Z) :
  cycle_steps_ok k r = true ->
  forall i, r <= i < r + Z.of_nat k ->
  let '(y1, m1, d1) := ord2ymd_cycle i in
  let '(y2, m2, d2) := ord2ymd_cycle (i + 1) in
  lex_lt [y1; m1; d1] [y2; m2; d2] = true.
Proof.
  revert r; induction k as [|k IH]; intros r H i Hi; [lia|].
  simpl in H.
  destruct (ord2ymd_cycle r) as [[y1 m1] d1] eqn:E1.
  destruct (ord2ymd_cycle (r + 1)) as [[y2 m2] d2] eqn:E2.
  apply andb_true_iff in H as [Hh Ht].
  destruct (Z.eq_dec i r) as [->|Hne].
  - rewrite E1, E2. exact Hh.
  - apply (IH (r + 1) Ht). lia.
Qed.

Lemma cycle_steps : cycle_steps_ok (Pos.to_nat 146096) 0 = true.
Proof. vm_compute. reflexivity. Qed.

Lemma ord2ymd_step (n : Z) :
  let '(y1, m1, d1) := ord2ymd n in
  let '(y2, m2, d2) := ord2ymd (n + 1) in
  lex_lt [y1; m1; d1] [y2; m2; d2] = true.
Proof.
  unfold ord2ymd.
  pose proof (Z.div_mod (n - 1) DI400Y ltac:(unfold DI400Y; lia)) as Hdm.
  pose proof (Z.mod_pos_bound (n - 1) DI400Y ltac:(unfold DI400Y; lia)) as Hb.
  set (q := (n - 1) / DI400Y) in *. set (r := (n - 1) mod DI400Y) in *.
  replace (n + 1 - 1) with (DI400Y * q + (r + 1)) by lia.
  destruct (Z.eq_dec r (DI400Y - 1)) as [Hr|Hr].
  - replace (DI400Y * q + (r + 1)) with (0 + (q + 1) * DI400Y) by (unfold DI400Y in *; lia).
    rewrite Z.div_add, Z.mod_add by (unfold DI400Y; lia).
    rewrite Hr. vm_compute (ord2ymd_cycle (DI400Y - 1)).
    vm_compute (ord2ymd_cycle (0 mod DI400Y)). rewrite Z.div_0_l by (unfold DI400Y; lia).
    lex_unfold. lia.
  - replace (DI400Y * q + (r + 1)) with ((r + 1) + q * DI400Y) by lia.
    rewrite Z.div_add, Z.mod_add by (unfold DI400Y; lia).
    rewrite (Z.div_small (r + 1)), (Z.mod_small (r + 1)), Z.add_0_l
      by (unfold DI400Y in *; lia).
    pose proof (cycle_steps_ok_spec _ _ cycle_steps r ltac:(unfold DI400Y in *; lia)) as Hs.
    destruct (ord2ymd_cycle r) as [[y1 m1] d1].
    destruct (ord2ymd_cycle (r + 1)) as [[y2 m2] d2].
    lex_unfold. lia.
Qed.

Lemma ord2ymd_increasing (n : Z) (k : nat) :
  let '(y1, m1, d1) := ord2ymd n in
  let '(y2, m2, d2) := ord2ymd (n + Z.of_nat k + 1) in
  lex_lt [y1; m1; d1] [y2; m2; d2] = true.
Proof.
  induction k as [|k IH].
  - replace (n + Z.of_nat 0 + 1) with (n + 1) by lia. apply ord2ymd_step.
  - pose proof (ord2ymd_step (n + Z.of_nat k + 1)) as Hs.
    replace (n + Z.of_nat (S k) + 1) with (n + Z.of_nat k + 1 + 1) by lia.
    destruct (ord2ymd n) as [[a1 a2] a3].
    destruct (ord2ymd (n + Z.of_nat k + 1)) as [[b1 b2] b3].
    destruct (ord2ymd (n + Z.of_nat k + 1 + 1)) as [[c1 c2] c3].
    eapply lex_lt3_trans; eauto.
Qed.

Lemma ord2ymd_lt (n1 n2 : Z) : n1 < n2 ->
  let '(y1, m1, d1) := ord2ymd n1 in
  let '(y2, m2, d2) := ord2ymd n2 in
  lex_lt [y1; m1; d1] [y2; m2; d2] = true.
Proof.
  intros H. pose proof (ord2ymd_increasing n1 (Z.to_nat (n2 - n1 - 1))) as Hi.
  replace (n1 + Z.of_nat (Z.to_nat (n2 - n1 - 1)) + 1) with n2 in Hi by lia.
  exact Hi.
Qed.

Lemma round_half_even_bounds (q : Q) :
  round_half_even q = Qfloor q \/ round_half_even q = Qfloor q + 1.
Proof.
  unfold round_half_even. destruct (Qcompare _ _); auto.
  destruct (Z.even _); auto.
Qed.

Lemma round_half_even_mono (q1 q2 : Q) :
  (q1 <= q2)%Q -> round_half_even q1 <= round_half_even q2.
Proof.
  intros Hq. pose proof (Qfloor_resp_le q1 q2 Hq) as Hf.
  destruct (Z.eq_dec (Qfloor q1) (Qfloor q2)) as [He|Hne].
  2:{ destruct (round_half_even_bounds q1), (round_half_even_bounds q2); lia. }
  unfold round_half_even. rewrite <- He.
  set (f := Qfloor q1).
  assert (Hfr : (q1 - inject_Z f <= q2 - inject_Z f)%Q).
  { apply Qplus_le_compat; [exact Hq|apply Qle_refl]. }
  destruct (Qcompare_spec (q1 - inject_Z f) (1 # 2)) as [E1|E1|E1];
  destruct (Qcompare_spec (q2 - inject_Z f) (1 # 2)) as [E2|E2|E2];
    try lia; try (destruct (Z.even f); lia); exfalso; lra.
Qed.

Lemma round_half_even_Z (z : Z) : round_half_even (inject_Z z) = z.
Proof.
  unfold round_half_even. rewrite Qfloor_Z.
  destruct (Qcompare_spec (inject_Z z - inject_Z z) (1 # 2)) as [H|H|H];
    [exfalso; lra|reflexivity|exfalso; lra].
Qed.

Lemma round_half_even_proper (q1 q2 : Q) : (q1 == q2)%Q -> round_half_even q1 = round_half_even q2.
Proof.
  intros H. apply Z.le_antisymm; apply round_half_even_mono; rewrite H; apply Qle_refl.
Qed.

Lemma round_half_even_le_Z (q : Q) (z : Z) : (q < inject_Z z)%Q -> round_half_even q <= z.
Proof.
  intros H. assert (Qfloor q < z).
  { apply Z.lt_nge. intros Hz. apply (Qlt_not_le _ _ H).
    apply Qle_trans with (inject_Z (Qfloor q)); [|apply Qfloor_le].
    rewrite <- Zle_Qle. exact Hz. }
  destruct (round_half_even_bounds q); lia.
Qed.

Lemma round_half_even_ge_Z (q : Q) (z : Z) : (inject_Z z <= q)%Q -> z <= round_half_even q.
Proof.
  intros H. rewrite <- (round_half_even_Z z). apply round_half_even_mono, H.
Qed.

Lemma pow2_pos (e : Z) : (0 < pow2 e)%Q.
Proof. apply Qpower_0_lt. reflexivity. Qed.

Lemma pow2_add (a b : Z) : (pow2 (a + b) == pow2 a * pow2 b)%Q.
Proof. apply Qpower_plus. discriminate. Qed.

Lemma pow2_le (a b : Z) : a <= b -> (pow2 a <= pow2 b)%Q.
Proof. intros H. apply Qpower_le_compat_l; [exact H|discriminate]. Qed.

Lemma pow2_nonneg (k : Z) : 0 <= k -> (pow2 k == inject_Z (2 ^ k))%Q.
Proof. intros H. unfold pow2. rewrite Zpower_Qpower by exact H. reflexivity. Qed.

(** [pow2 (a - b)] as a fraction of powers of two. *)
Lemma pow2_sub (a b : Z) : 0 <= a -> 0 <= b ->
  (pow2 (a - b) * inject_Z (2 ^ b) == inject_Z (2 ^ a))%Q.
Proof.
  intros Ha Hb. rewrite <- (pow2_nonneg b Hb), <- (pow2_nonneg a Ha), <- pow2_add.
  replace (a - b + b) with a by lia. reflexivity.
Qed.

Lemma Q_num_den (x : Q) : (x * inject_Z (Zpos (Qden x)) == inject_Z (Qnum x))%Q.
Proof.
  destruct x as [n d]. unfold Qeq, Qmult, inject_Z; simpl. lia.
Qed.

Lemma fexp_spec (x : Q) : (0 < x)%Q ->
  (x < pow2 (fexp x + 53))%Q /\
  (fexp x = -1074 \/ (pow2 (fexp x + 52) <= x)%Q) /\ -1074 <= fexp x.
Proof.
  intros Hx. destruct x as [n d] eqn:Ex. rewrite <- Ex.
  assert (Hn : 0 < n) by (unfold Qlt in Hx; simpl in Hx; lia).
  set (a := Z.log2 n). set (b := Z.log2 (Zpos d)).
  destruct (Z.log2_spec n Hn) as [Ha1 Ha2]. fold a in Ha1, Ha2.
  destruct (Z.log2_spec (Zpos d) ltac:(lia)) as [Hb1 Hb2]. fold b in Hb1, Hb2.
  pose proof (Z.log2_nonneg n) as Ha0. pose proof (Z.log2_nonneg (Zpos d)) as Hb0.
  fold a in Ha0. fold b in Hb0.
  assert (Hxd : (x * inject_Z (Zpos d) == inject_Z n)%Q) by (rewrite Ex; apply Q_num_den).
  assert (Hd : (0 < inject_Z (Zpos d))%Q) by (unfold Qlt, US_PER_DAY; simpl; lia).
  assert (Hp2 : 2 ^ (a + 1) = 2 * 2 ^ a) by (rewrite Z.pow_add_r by lia; lia).
  assert (Hp2b : 2 ^ (b + 1) = 2 * 2 ^ b) by (rewrite Z.pow_add_r by lia; lia).
  (* x < 2^(a-b+1) *)
  assert (HA : (x < pow2 (a - b + 1))%Q).
  { apply (Qmult_lt_r _ _ (inject_Z (2 ^ b * Zpos d))).
    { unfold Qlt; simpl. nia. }
    setoid_replace (x * inject_Z (2 ^ b * Zpos d))%Q with (inject_Z (n * 2 ^ b)) using relation Qeq.
    2:{ rewrite !inject_Z_mult, <- Hxd. ring. }
    setoid_replace (pow2 (a - b + 1) * inject_Z (2 ^ b * Zpos d))%Q
      with (inject_Z (2 ^ (a + 1) * Zpos d)) using relation Qeq.
    2:{ rewrite !inject_Z_mult, <- (pow2_sub (a + 1) b) by lia.
        replace (a + 1 - b) with (a - b + 1) by lia. ring. }
    rewrite <- Zlt_Qlt. nia. }
  (* 2^(a-b-1) <= x *)
  assert (HB : (pow2 (a - b - 1) <= x)%Q).
  { apply (Qmult_le_r _ _ (inject_Z (2 ^ (b + 1) * Zpos d))).
    { unfold Qlt; simpl. nia. }
    setoid_replace (x * inject_Z (2 ^ (b + 1) * Zpos d))%Q with (inject_Z (n * 2 ^ (b + 1))) using relation Qeq.
    2:{ rewrite !inject_Z_mult, <- Hxd. ring. }
    setoid_replace (pow2 (a - b - 1) * inject_Z (2 ^ (b + 1) * Zpos d))%Q
      with (inject_Z (2 ^ a * Zpos d)) using relation Qeq.
    2:{ rewrite !inject_Z_mult, <- (pow2_sub a (b + 1)) by lia.
        replace (a - (b + 1)) with (a - b - 1) by lia. ring. }
    rewrite <- Zle_Qle. nia. }
  unfold fexp. rewrite Ex. simpl Qnum. simpl Qden. rewrite <- Ex. fold a b.
  set (e0 := a - b - 52).
  destruct (Qle_bool (pow2 (e0 + 52)) x) eqn:Eb.
  - apply Qle_bool_imp_le in Eb.
    destruct (Z.max_spec e0 (-1074)) as [[Hm Hmx]|[Hm Hmx]]; rewrite Hmx.
    + split; [|split; [left; reflexivity|lia]].
      apply Qlt_le_trans with (pow2 (e0 + 53)).
      * replace (e0 + 53) with (a - b + 1) by (unfold e0; lia). exact HA.
      * apply pow2_le. lia.
    + split; [|split; [right; exact Eb|lia]].
      replace (e0 + 53) with (a - b + 1) by (unfold e0; lia). exact HA.
  - assert (Hlt : (x < pow2 (e0 + 52))%Q).
    { apply Qnot_le_lt. intros H. apply Qle_bool_iff in H. congruence. }
    destruct (Z.max_spec (e0 - 1) (-1074)) as [[Hm Hmx]|[Hm Hmx]]; rewrite Hmx.
    + split; [|split; [left; reflexivity|lia]].
      apply Qlt_le_trans with (pow2 (e0 + 52)); [exact Hlt|apply pow2_le; lia].
    + split; [|split; [right|lia]].
      * replace (e0 - 1 + 53) with (e0 + 52) by lia. exact Hlt.
      * replace (e0 - 1 + 52) with (a - b - 1) by (unfold e0; lia). exact HB.
Qed.

Lemma div_pow2_mul (x : Q) (e : Z) : (x / pow2 e * pow2 e == x)%Q.
Proof.
  field. intros H. pose proof (pow2_pos e) as Hp. rewrite H in Hp. discriminate.
Qed.

Lemma round_pos_eq (x : Q) :
  (round_pos x == inject_Z (round_half_even (x / pow2 (fexp x))) * pow2 (fexp x))%Q.
Proof. unfold round_pos. apply Qred_correct. Qed.

Lemma round_pos_upper (x : Q) : (0 < x)%Q -> (round_pos x <= pow2 (fexp x + 53))%Q.
Proof.
  intros Hx. destruct (fexp_spec x Hx) as [H1 _].
  set (e := fexp x) in *. rewrite round_pos_eq. fold e.
  rewrite pow2_add, (pow2_nonneg 53) by lia.
  rewrite (Qmult_comm (pow2 e)).
  apply Qmult_le_compat_r; [|apply Qlt_le_weak, pow2_pos].
  rewrite <- Zle_Qle. apply round_half_even_le_Z.
  apply (Qmult_lt_r _ _ (pow2 e)); [apply pow2_pos|].
  rewrite div_pow2_mul, <- (pow2_nonneg 53), <- pow2_add by lia. rewrite Z.add_comm. exact H1.
Qed.

Lemma round_pos_lower (x : Q) : (0 < x)%Q -> fexp x <> -1074 ->
  (pow2 (fexp x + 52) <= round_pos x)%Q.
Proof.
  intros Hx Hne. destruct (fexp_spec x Hx) as [_ [[H2|H2] _]]; [contradiction|].
  set (e := fexp x) in *. rewrite round_pos_eq. fold e.
  rewrite pow2_add, (pow2_nonneg 52) by lia.
  rewrite (Qmult_comm (pow2 e)).
  apply Qmult_le_compat_r; [|apply Qlt_le_weak, pow2_pos].
  rewrite <- Zle_Qle. apply round_half_even_ge_Z.
  apply (Qmult_le_r _ _ (pow2 e)); [apply pow2_pos|].
  rewrite div_pow2_mul, <- (pow2_nonneg 52), <- pow2_add by lia. rewrite Z.add_comm. exact H2.
Qed.

Lemma round_pos_nonneg (x : Q) : (0 < x)%Q -> (0 <= round_pos x)%Q.
Proof.
  intros Hx. rewrite round_pos_eq.
  apply Qmult_le_0_compat; [|apply Qlt_le_weak, pow2_pos].
  change 0%Q with (inject_Z 0). rewrite <- Zle_Qle. apply round_half_even_ge_Z.
  apply Qlt_le_weak. apply Qlt_shift_div_l; [apply pow2_pos|].
  rewrite Qmult_0_l. exact Hx.
Qed.

Lemma fexp_mono (a b : Q) : (0 < a)%Q -> (a <= b)%Q -> fexp a <= fexp b.
Proof.
  intros Ha Hab. assert (Hb : (0 < b)%Q) by (eapply Qlt_le_trans; eauto).
  destruct (fexp_spec a Ha) as [_ [Ha2 Ha3]]. destruct (fexp_spec b Hb) as [Hb1 [_ Hb3]].
  apply Z.nlt_ge. intros Hlt.
  destruct Ha2 as [Ha2|Ha2]; [lia|].
  apply (Qlt_irrefl b).
  apply Qlt_le_trans with (pow2 (fexp b + 53)); [exact Hb1|].
  apply Qle_trans with (pow2 (fexp a + 52)); [apply pow2_le; lia|].
  apply Qle_trans with a; assumption.
Qed.

Lemma round_pos_mono (a b : Q) : (0 < a)%Q -> (a <= b)%Q -> (round_pos a <= round_pos b)%Q.
Proof.
  intros Ha Hab. assert (Hb : (0 < b)%Q) by (eapply Qlt_le_trans; eauto).
  pose proof (fexp_mono a b Ha Hab) as He.
  destruct (Z.eq_dec (fexp a) (fexp b)) as [Heq|Hne].
  - rewrite !round_pos_eq, <- Heq.
    apply Qmult_le_compat_r; [|apply Qlt_le_weak, pow2_pos].
    rewrite <- Zle_Qle. apply round_half_even_mono.
    apply Qmult_le_compat_r; [exact Hab|].
    apply Qlt_le_weak, Qinv_lt_0_compat, pow2_pos.
  - destruct (fexp_spec a Ha) as [_ [_ Ha3]].
    apply Qle_trans with (pow2 (fexp a + 53)); [apply round_pos_upper, Ha|].
    apply Qle_trans with (pow2 (fexp b + 52)); [apply pow2_le; lia|].
    apply round_pos_lower; [exact Hb|lia].
Qed.

Lemma round_double_mono (a b : Q) : (a <= b)%Q -> (round_double a <= round_double b)%Q.
Proof.
  intros Hab. unfold round_double.
  destruct (Qcompare_spec a 0) as [Ea|Ea|Ea]; destruct (Qcompare_spec b 0) as [Eb|Eb|Eb].
  - apply Qle_refl.
  - exfalso. rewrite Ea in Hab. apply (Qlt_not_le _ _ Eb Hab).
  - apply round_pos_nonneg, Eb.
  - assert (0 <= round_pos (- a))%Q by (apply round_pos_nonneg; lra). lra.
  - assert (0 <= round_pos (- a))%Q by (apply round_pos_nonneg; lra).
    assert (round_pos (- b) <= round_pos (- a))%Q by (apply round_pos_mono; lra). lra.
  - assert (0 <= round_pos (- a))%Q by (apply round_pos_nonneg; lra).
    assert (0 <= round_pos b)%Q by (apply round_pos_nonneg; lra). lra.
  - exfalso. lra.
  - exfalso. lra.
  - apply round_pos_mono; assumption.
Qed.

Lemma round_double_zero (x : Q) : (x == 0)%Q -> round_double x = 0%Q.
Proof. intros H. unfold round_double. rewrite H. reflexivity. Qed.

Lemma round_double_US : round_double (inject_Z US_PER_DAY) = inject_Z US_PER_DAY.
Proof. vm_compute. reflexivity. Qed.

Lemma round_double_mUS : round_double (- inject_Z US_PER_DAY) = (- inject_Z US_PER_DAY)%Q.
Proof. vm_compute. reflexivity. Qed.

Lemma round_double_range (x : Q) :
  (0 <= x <= inject_Z US_PER_DAY -> 0 <= round_double x <= inject_Z US_PER_DAY)%Q /\
  (- inject_Z US_PER_DAY <= x <= 0 -> - inject_Z US_PER_DAY <= round_double x <= 0)%Q.
Proof.
  split; intros [H1 H2].
  - rewrite <- round_double_US. rewrite <- (round_double_zero 0) by reflexivity.
    split; apply round_double_mono; assumption.
  - rewrite <- round_double_mUS. rewrite <- (round_double_zero 0) by reflexivity.
    split; apply round_double_mono; assumption.
Qed.

Lemma trunc_nonneg (q : Q) : (0 <= q)%Q ->
  trunc q = Qfloor q /\ (inject_Z (trunc q) <= q < inject_Z (trunc q) + 1)%Q /\ 0 <= trunc q.
Proof.
  intros H. unfold trunc. rewrite (proj2 (Qle_bool_iff 0 q) H).
  split; [reflexivity|]. split; [split|].
  - apply Qfloor_le.
  - pose proof (Qlt_floor q) as Hl. rewrite inject_Z_plus in Hl. exact Hl.
  - change 0 with (Qfloor 0). apply Qfloor_resp_le, H.
Qed.

Lemma trunc_neg (q : Q) : (q < 0)%Q ->
  (inject_Z (trunc q) - 1 < q <= inject_Z (trunc q))%Q /\ trunc q <= 0.
Proof.
  intros H. unfold trunc.
  destruct (Qle_bool 0 q) eqn:E.
  { apply Qle_bool_iff in E. exfalso. lra. }
  pose proof (Qfloor_le (- q)) as H1. pose proof (Qlt_floor (- q)) as H2.
  rewrite inject_Z_plus in H2. change (inject_Z 1) with 1%Q in H2. rewrite inject_Z_opp.
  split; [lra|].
  assert (0 <= Qfloor (- q)) by (change 0 with (Qfloor 0); apply Qfloor_resp_le; lra). lia.
Qed.

Lemma trunc_mono (q1 q2 : Q) : (q1 <= q2)%Q -> trunc q1 <= trunc q2.
Proof.
  intros H. unfold trunc.
  destruct (Qle_bool 0 q1) eqn:E1; destruct (Qle_bool 0 q2) eqn:E2.
  - apply Qfloor_resp_le, H.
  - apply Qle_bool_iff in E1. exfalso. assert (Hc : (0 <= q2)%Q) by lra. apply Qle_bool_iff in Hc. congruence.
  - assert (0 <= Qfloor (- q1)) by (change 0 with (Qfloor 0); apply Qfloor_resp_le;
      apply Qnot_lt_le; intros Hc; assert (Hc' : (0 <= q1)%Q) by lra;
      apply Qle_bool_iff in Hc'; congruence).
    assert (0 <= Qfloor q2) by (change 0 with (Qfloor 0); apply Qfloor_resp_le, Qle_bool_iff, E2).
    lia.
  - assert (Qfloor (- q2) <= Qfloor (- q1)) by (apply Qfloor_resp_le; lra). lia.
Qed.

Lemma timedelta_us_sum (days : Q) : timedelta_us days = round_half_even (td_sum days).
Proof.
  unfold timedelta_us, td_sum.
  set (ip := trunc days). set (fp := (days - inject_Z ip)%Q).
  destruct (Qeq_bool fp 0) eqn:E0.
  - apply Qeq_bool_iff in E0.
    rewrite (round_double_zero (inject_Z US_PER_DAY * fp)) by (rewrite E0; ring).
    rewrite (round_half_even_proper _ (inject_Z (ip * US_PER_DAY))) by ring. rewrite round_half_even_Z. reflexivity.
  - set (p := round_double (inject_Z US_PER_DAY * fp)).
    destruct (Qeq_bool (p - inject_Z (trunc p)) 0) eqn:E1.
    + apply Qeq_bool_iff in E1.
      rewrite (round_half_even_proper _ (inject_Z (ip * US_PER_DAY + trunc p))).
      * rewrite round_half_even_Z. reflexivity.
      * rewrite inject_Z_plus. lra.
    + apply round_half_even_proper. rewrite inject_Z_plus. ring.
Qed.

Lemma td_sum_nonneg_range (q : Q) : (0 <= q)%Q ->
  (inject_Z (trunc q * US_PER_DAY) <= td_sum q <= inject_Z ((trunc q + 1) * US_PER_DAY))%Q.
Proof.
  intros H. destruct (trunc_nonneg q H) as [_ [[H1 H2] _]].
  assert (HU : (0 < inject_Z US_PER_DAY)%Q) by (unfold Qlt, US_PER_DAY; simpl; lia).
  destruct (proj1 (round_double_range (inject_Z US_PER_DAY * (q - inject_Z (trunc q)))))
    as [R1 R2].
  { split.
    - apply Qmult_le_0_compat; lra.
    - setoid_replace (inject_Z US_PER_DAY) with (inject_Z US_PER_DAY * 1)%Q using relation Qeq at 2 by ring.
      apply Qmult_le_l; lra. }
  unfold td_sum. rewrite !inject_Z_mult, inject_Z_plus. change (inject_Z 1) with 1%Q. lra.
Qed.

Lemma td_sum_neg_range (q : Q) : (q < 0)%Q ->
  (inject_Z ((trunc q - 1) * US_PER_DAY) <= td_sum q <= inject_Z (trunc q * US_PER_DAY))%Q.
Proof.
  intros H. destruct (trunc_neg q H) as [[H1 H2] _].
  assert (HU : (0 < inject_Z US_PER_DAY)%Q) by (unfold Qlt, US_PER_DAY; simpl; lia).
  destruct (proj2 (round_double_range (inject_Z US_PER_DAY * (q - inject_Z (trunc q)))))
    as [R1 R2].
  { split.
    - setoid_replace (- inject_Z US_PER_DAY)%Q with (inject_Z US_PER_DAY * (-1))%Q using relation Qeq by ring.
      apply Qmult_le_l; lra.
    - setoid_replace 0%Q with (inject_Z US_PER_DAY * 0)%Q using relation Qeq by ring.
      apply Qmult_le_l; lra. }
  unfold td_sum. replace (trunc q - 1) with (trunc q + (-1)) by lia.
  rewrite !inject_Z_mult, inject_Z_plus. change (inject_Z (-1)) with (-1)%Q. lra.
Qed.

Lemma td_sum_mono (q1 q2 : Q) : (q1 <= q2)%Q -> (td_sum q1 <= td_sum q2)%Q.
Proof.
  intros H. pose proof (trunc_mono q1 q2 H) as Ht.
  destruct (Z.eq_dec (trunc q1) (trunc q2)) as [He|Hne].
  - unfold td_sum. rewrite He. apply Qplus_le_compat; [apply Qle_refl|].
    apply round_double_mono. apply Qmult_le_l; [unfold Qlt, US_PER_DAY; simpl; lia|]. lra.
  - assert (HU : 0 < US_PER_DAY) by (unfold US_PER_DAY; lia).
    destruct (Qlt_le_dec q1 0) as [N1|P1]; destruct (Qlt_le_dec q2 0) as [N2|P2].
    + destruct (td_sum_neg_range q1 N1) as [_ A]. destruct (td_sum_neg_range q2 N2) as [B _].
      eapply Qle_trans; [exact A|]. eapply Qle_trans; [|exact B].
      rewrite <- Zle_Qle. nia.
    + destruct (td_sum_neg_range q1 N1) as [_ A]. destruct (td_sum_nonneg_range q2 P2) as [B _].
      destruct (trunc_neg q1 N1) as [_ T1]. destruct (trunc_nonneg q2 P2) as [_ [_ T2]].
      eapply Qle_trans; [exact A|]. eapply Qle_trans; [|exact B].
      rewrite <- Zle_Qle. nia.
    + exfalso. lra.
    + destruct (td_sum_nonneg_range q1 P1) as [_ A]. destruct (td_sum_nonneg_range q2 P2) as [B _].
      eapply Qle_trans; [exact A|]. eapply Qle_trans; [|exact B].
      rewrite <- Zle_Qle. nia.
Qed.

Lemma timedelta_us_mono (q1 q2 : Q) : (q1 <= q2)%Q -> timedelta_us q1 <= timedelta_us q2.
Proof.
  intros H. rewrite !timedelta_us_sum. apply round_half_even_mono, td_sum_mono, H.
Qed.

Lemma timedelta_us_Z (n : Z) : timedelta_us (inject_Z n) = n * US_PER_DAY.
Proof.
  rewrite timedelta_us_sum. unfold td_sum.
  assert (Ht : trunc (inject_Z n) = n).
  { unfold trunc. destruct (Qle_bool 0 (inject_Z n)); [apply Qfloor_Z|].
    rewrite <- inject_Z_opp, Qfloor_Z. lia. }
  rewrite Ht, (round_double_zero _) by ring.
  rewrite (round_half_even_proper _ (inject_Z (n * US_PER_DAY))) by ring. apply round_half_even_Z.
Qed.

(** At the float [0.768593599994213] the double product rounds up: the
    result is [66406487040] microseconds, whereas rounding the exact
    product would give [66406487039]. *)
Lemma timedelta_days_double_product :
  timedelta_days (6922875701066571 # 9007199254740992) = Ok 66406487040 /\
  round_half_even ((6922875701066571 # 9007199254740992) * inject_Z US_PER_DAY) = 66406487039.
Proof. split; vm_compute; reflexivity. Qed.

Lemma timedelta_days_mono (q1 q2 : Q) (u1 u2 : Z) :
  (q1 <= q2)%Q -> timedelta_days q1 = Ok u1 -> timedelta_days q2 = Ok u2 -> u1 <= u2.
Proof.
  unfold timedelta_days. intros Hq H1 H2.
  destruct (999999999 <? _); [discriminate|]. destruct (999999999 <? _); [discriminate|].
  injection H1 as <-. injection H2 as <-. apply timedelta_us_mono, Hq.
Qed.

Lemma add_timedelta_mono (b : datetime) (u1 u2 : Z) (d1 d2 : datetime) :
  u1 <= u2 -> add_timedelta b u1 = Ok d1 -> add_timedelta b u2 = Ok d2 ->
  dt_le d1 d2 = true.
Proof.
  intros Hu H1 H2. unfold add_timedelta in H1, H2.
  remember (((ymd2ord (year b) (month b) (day b) - 1) * 86400 + hour b * 3600
             + minute b * 60 + second b) * 1000000 + microsecond b) as c eqn:Hc.
  clear Hc.
  set (t1 := c + u1) in *. set (t2 := c + u2) in *.
  destruct (_ || _); [discriminate|]. destruct (_ || _); [discriminate|].
  assert (Ht : t1 <= t2) by (unfold t1, t2; lia).
  assert (HD : 0 < US_PER_DAY) by (unfold US_PER_DAY; lia).
  pose proof (Z.div_le_mono t1 t2 US_PER_DAY HD Ht) as Hdiv.
  pose proof (Z.div_mod t1 US_PER_DAY ltac:(lia)) as Hm1.
  pose proof (Z.div_mod t2 US_PER_DAY ltac:(lia)) as Hm2.
  pose proof (Z.mod_pos_bound t1 US_PER_DAY HD) as Hb1.
  pose proof (Z.mod_pos_bound t2 US_PER_DAY HD) as Hb2.
  destruct (Z.eq_dec (t1 / US_PER_DAY) (t2 / US_PER_DAY)) as [He|Hlt].
  - rewrite He in H1.
    destruct (ord2ymd (t2 / US_PER_DAY + 1)) as [[y m] d].
    injection H1 as <-. injection H2 as <-.
    set (r1 := t1 mod US_PER_DAY) in *. set (r2 := t2 mod US_PER_DAY) in *.
    assert (Hr : r1 <= r2) by lia.
    unfold dt_le, fields; simpl.
    pose proof (Z.div_mod r1 1000000 ltac:(lia)). pose proof (Z.mod_pos_bound r1 1000000 ltac:(lia)).
    pose proof (Z.div_mod r2 1000000 ltac:(lia)). pose proof (Z.mod_pos_bound r2 1000000 ltac:(lia)).
    set (s1 := r1 / 1000000) in *. set (s2 := r2 / 1000000) in *.
    pose proof (Z.div_mod s1 3600 ltac:(lia)). pose proof (Z.mod_pos_bound s1 3600 ltac:(lia)).
    pose proof (Z.div_mod s2 3600 ltac:(lia)). pose proof (Z.mod_pos_bound s2 3600 ltac:(lia)).
    pose proof (Z.div_mod (s1 mod 3600) 60 ltac:(lia)). pose proof (Z.mod_pos_bound (s1 mod 3600) 60 ltac:(lia)).
    pose proof (Z.div_mod (s2 mod 3600) 60 ltac:(lia)). pose proof (Z.mod_pos_bound (s2 mod 3600) 60 ltac:(lia)).
    pose proof (Z.div_mod s1 60 ltac:(lia)). pose proof (Z.mod_pos_bound s1 60 ltac:(lia)).
    pose proof (Z.div_mod s2 60 ltac:(lia)). pose proof (Z.mod_pos_bound s2 60 ltac:(lia)).
    lex_unfold. lia.
  - assert (Hlt' : t1 / US_PER_DAY + 1 < t2 / US_PER_DAY + 1) by lia.
    pose proof (ord2ymd_lt _ _ Hlt') as Hy.
    destruct (ord2ymd (t1 / US_PER_DAY + 1)) as [[ya ma] da].
    destruct (ord2ymd (t2 / US_PER_DAY + 1)) as [[yb mb] db].
    injection H1 as <-. injection H2 as <-.
    unfold dt_le, fields; simpl. lex_unfold. lia.
Qed.

End DateTimeFacts.

(** ** Claims about [convert_mjd_to_datetime] *)

Module MjdClaims.
Import PyDateTime.

(** C8 (counterexample). [convert_mjd_to_datetime(10**7)] raises
    OverflowError (the date would fall after year 9999), so the claim that
    [mjdToDate] is monotonic for all [mjd1 <= mjd2] fails at [0 <= 10**7]. *)
Lemma mjd_overflow_counterexample :
  convert_mjd_to_datetime (inject_Z 10000000) = Err OverflowError /\
  ~ mjd_claim_as_stated.
Proof.
  assert (H : convert_mjd_to_datetime (inject_Z 10000000) = Err OverflowError)
    by (vm_compute; reflexivity).
  split; [exact H|]. intros [_ Hall].
  destruct (Hall 0%Q (inject_Z 10000000)) as [d1 [d2 [_ [H2 _]]]].
  - unfold Qle; simpl; lia.
  - rewrite H in H2. discriminate.
Qed.

(** C8 (amended). [convert_mjd_to_datetime(0)] is 1858-11-17 00:00:00, and
    the result is monotonic non-decreasing on every pair of inputs for
    which both calls return a datetime (no OverflowError). *)
Theorem mjd_zero_and_monotone :
  convert_mjd_to_datetime 0 = Ok base_date /\
  forall (m1 m2 : Q) (d1 d2 : datetime), (m1 <= m2)%Q ->
    convert_mjd_to_datetime m1 = Ok d1 -> convert_mjd_to_datetime m2 = Ok d2 ->
    dt_le d1 d2 = true.
Proof.
  split; [vm_compute; reflexivity|].
  intros m1 m2 d1 d2 Hm H1 H2. unfold convert_mjd_to_datetime, rbind in H1, H2.
  destruct (timedelta_days m1) as [u1|] eqn:E1; [|discriminate].
  destruct (timedelta_days m2) as [u2|] eqn:E2; [|discriminate].
  eapply DateTimeFacts.add_timedelta_mono; [|exact H1|exact H2].
  eapply DateTimeFacts.timedelta_days_mono; eauto.
Qed.

End MjdClaims.

(** ** Frame lemmas for the store *)

Section StoreFrames.
Context {F : Type} `{FO : FloatOps F} (X : Externals F).

(** What a computation may change, whatever its outcome. *)
Definition preserves {A} (R : State F -> State F -> Prop) (m : M F A) : Prop :=
  forall s r s', m s = (r, s') -> R s s'.

(** Only the files change. *)
Definition files_only (s s' : State F) : Prop :=
  catalog_type s' = catalog_type s /\
  catalogs_configs s' = catalogs_configs s /\ catalogs s' = catalogs s.

(** The selector and the descriptors stay; the tables stay, except that
    the current catalog type's entry may be set. *)
Definition current_entry_only (s s' : State F) : Prop :=
  catalog_type s' = catalog_type s /\
  catalogs_configs s' = catalogs_configs s /\
  (catalogs s' = catalogs s \/
   exists t, catalogs s' = <[catalog_type s := t]> (catalogs s)).

Lemma files_only_refl (s : State F) : files_only s s.
Proof. repeat split. Qed.

Lemma files_only_trans (s1 s2 s3 : State F) :
  files_only s1 s2 -> files_only s2 s3 -> files_only s1 s3.
Proof. intros (?&?&?) (?&?&?). repeat split; congruence. Qed.

Lemma current_entry_only_refl (s : State F) : current_entry_only s s.
Proof. split; [reflexivity|]. split; [reflexivity|]. left. reflexivity. Qed.

Lemma current_entry_only_trans (s1 s2 s3 : State F) :
  current_entry_only s1 s2 -> current_entry_only s2 s3 -> current_entry_only s1 s3.
Proof.
  intros (H1&H2&H3) (H4&H5&H6). split; [congruence|]. split; [congruence|].
  destruct H3 as [E1|[t1 E1]], H6 as [E2|[t2 E2]].
  - left. congruence.
  - right. exists t2. rewrite E2, E1, H1. reflexivity.
  - right. exists t1. rewrite E2. exact E1.
  - right. exists t2. rewrite E2, E1, H1. apply insert_insert_eq.
Qed.

Lemma files_only_current (s s' : State F) : files_only s s' -> current_entry_only s s'.
Proof. intros (?&?&?). split; [done|]. split; [done|]. left. done. Qed.

Lemma preserves_bind {A B} (R : State F -> State F -> Prop) (m : M F A) (k : A -> M F B) :
  (forall s, R s s) -> (forall s1 s2 s3, R s1 s2 -> R s2 s3 -> R s1 s3) ->
  preserves R m -> (forall a, preserves R (k a)) -> preserves R (bind m k).
Proof.
  intros Hrefl Htrans Hm Hk s r s' H. unfold bind in H.
  destruct (m s) as [[a|e] s1] eqn:E.
  - eapply Htrans; [eapply Hm; exact E|eapply Hk; exact H].
  - injection H as _ <-. eapply Hm. exact E.
Qed.

Lemma preserves_pure {A} (R : State F -> State F -> Prop) (m : M F A) :
  (forall s, R s s) -> (forall s, snd (m s) = s) -> preserves R m.
Proof. intros Hr Hm s r s' H. specialize (Hm s). rewrite H in Hm. simpl in Hm. subst. apply Hr. Qed.

Lemma preserves_weaken {A} (R1 R2 : State F -> State F -> Prop) (m : M F A) :
  (forall s s', R1 s s' -> R2 s s') -> preserves R1 m -> preserves R2 m.
Proof. intros HR Hm s r s' H. apply HR. eapply Hm. exact H. Qed.

End StoreFrames.

Create HintDb store_frame.
#[export] Hint Resolve files_only_refl files_only_trans current_entry_only_refl
  current_entry_only_trans : store_frame.

(** Splits a computation into its primitive steps. *)
Ltac frame_steps :=
  repeat match goal with
  | |- preserves _ (bind _ _) =>
      apply preserves_bind; [eauto with store_frame|eauto with store_frame| |intro]
  | |- preserves _ (match ?x with _ => _ end) => destruct x
  | |- preserves _ (if ?b then _ else _) => destruct b
  end.

Ltac pure_step := apply preserves_pure; [eauto with store_frame|reflexivity].

Section StorePrimFrames.
Context {F : Type} `{FO : FloatOps F} (X : Externals F).
Implicit Types (R : State F -> State F -> Prop).

Lemma ret_pres {A} R (a : A) : (forall s, R s s) -> preserves R (ret a).
Proof. intros. apply preserves_pure; auto. Qed.

Lemma raise_pres {A} R e : (forall s, R s s) -> preserves R (@raise F A e).
Proof. intros. apply preserves_pure; auto. Qed.

Lemma gets_pres {A} R (f : State F -> A) : (forall s, R s s) -> preserves R (gets f).
Proof. intros. apply preserves_pure; auto. Qed.

Lemma lift_pres {A} R (r : result A) : (forall s, R s s) -> preserves R (@lift F A r).
Proof. intros. apply preserves_pure; auto. Qed.

Lemma read_file_pres R p : (forall s, R s s) -> preserves R (@read_file F p).
Proof.
  intros Hr. apply preserves_pure; [exact Hr|]. intros s. unfold read_file.
  destruct (files s !! p); reflexivity.
Qed.

Lemma write_file_pres p f : preserves files_only (@write_file F p f).
Proof. intros s r s' H. injection H as _ <-. repeat split. Qed.

Lemma download_pres u p : preserves files_only (download X u p).
Proof.
  intros s r s' H. unfold download in H.
  destruct (urlretrieve X u (files s !! p)) as [after ok].
  injection H as _ <-. repeat split.
Qed.

Lemma store_catalog_pres t : preserves current_entry_only (@store_catalog F t).
Proof.
  intros s r s' H. injection H as _ <-. split; [reflexivity|]. split; [reflexivity|].
  right. exists t. reflexivity.
Qed.

Lemma set_catalog_type_frame k s r s' :
  @set_catalog_type F k s = (r, s') ->
  catalog_type s' = k /\ catalogs_configs s' = catalogs_configs s /\
  catalogs s' = catalogs s /\ files s' = files s.
Proof. intros H. injection H as _ <-. repeat split. Qed.

End StorePrimFrames.

#[export] Hint Resolve ret_pres raise_pres gets_pres lift_pres read_file_pres
  write_file_pres download_pres store_catalog_pres : store_frame.

Ltac frame_solve :=
  frame_steps;
  first [ eauto with store_frame
        | eapply preserves_weaken; [apply files_only_current|eauto with store_frame] ].

Section StoreFramesOps.
Context {F : Type} `{FO : FloatOps F} (X : Externals F).

Lemma config_field_pres {A} R (f : Catalog -> A) :
  (forall s, R s s) -> (forall s1 s2 s3, R s1 s2 -> R s2 s3 -> R s1 s3) ->
  preserves R (@config_field F A f).
Proof. intros. unfold config_field, _catalog_config. frame_solve. Qed.

Lemma transform_pres : preserves files_only (@_transform_astdys_catalog F FO).
Proof.
  unfold _transform_astdys_catalog, _astdys_full_filename, _catalog_config.
  frame_steps; eauto using config_field_pres with store_frame.
Qed.

Lemma build_pres : preserves files_only (_build X).
Proof.
  unfold _build, _astdys_full_filename, _catalog_full_filename, path_exists.
  frame_steps; eauto using config_field_pres, transform_pres with store_frame.
Qed.

Lemma load_pres : preserves current_entry_only (load X).
Proof.
  unfold load, read_cached, _catalog_full_filename, _catalog, path_exists.
  frame_steps;
    try (eapply preserves_weaken; [apply files_only_current|apply build_pres]);
    eauto using config_field_pres with store_frame.
Qed.

Lemma ensure_loaded_pres : preserves current_entry_only (ensure_loaded X).
Proof.
  unfold ensure_loaded, _catalog. frame_steps; eauto using load_pres with store_frame.
Qed.

Lemma current_table_pres : preserves current_entry_only (@current_table F).
Proof. unfold current_table, _catalog. frame_steps; eauto with store_frame. Qed.

Lemma search_pres (a : search_arg) : preserves current_entry_only (search X a).
Proof.
  unfold search. cbv zeta.
  frame_steps; eauto using ensure_loaded_pres, current_table_pres with store_frame.
Qed.

Lemma search_by_axis_pres (axis sigma : F) :
  preserves current_entry_only (search_by_axis X axis sigma).
Proof.
  unfold search_by_axis. cbv zeta.
  frame_steps; eauto using ensure_loaded_pres, current_table_pres with store_frame.
Qed.

Lemma get_catalog_pres : preserves current_entry_only (get_catalog X).
Proof.
  unfold get_catalog, _catalog.
  frame_steps; eauto using ensure_loaded_pres with store_frame.
Qed.

End StoreFramesOps.

Section StoreRuns.
Context {F : Type} `{FO : FloatOps F} (X : Externals F).

Lemma bind_ok {A B} (m : M F A) (k : A -> M F B) s a s1 :
  m s = (Ok a, s1) -> bind m k s = k a s1.
Proof. intros H. unfold bind. rewrite H. reflexivity. Qed.

Lemma bind_err {A B} (m : M F A) (k : A -> M F B) s e s1 :
  m s = (Err e, s1) -> bind m k s = (Err e, s1).
Proof. intros H. unfold bind. rewrite H. reflexivity. Qed.

Lemma bind_gets {A B} (f : State F -> A) (k : A -> M F B) s :
  bind (gets f) k s = k (f s) s.
Proof. reflexivity. Qed.

Lemma bind_inv_ok {A B} (m : M F A) (k : A -> M F B) s b s' :
  bind m k s = (Ok b, s') -> exists a s1, m s = (Ok a, s1) /\ k a s1 = (Ok b, s').
Proof.
  unfold bind. destruct (m s) as [[a|e] s1]; [eauto|discriminate].
Qed.

Lemma bind_inv_err {A B} (m : M F A) (k : A -> M F B) s e s' :
  bind m k s = (Err e, s') ->
  m s = (Err e, s') \/ exists a s1, m s = (Ok a, s1) /\ k a s1 = (Err e, s').
Proof.
  unfold bind. destruct (m s) as [[a|e'] s1]; [eauto|]. intros H; injection H as -> ->. auto.
Qed.

Lemma config_field_run {A} (f : Catalog -> A) (s : State F) cfg :
  catalogs_configs s !! catalog_type s = Some cfg -> config_field f s = (Ok (f cfg), s).
Proof. intros H. unfold config_field, _catalog_config, gets, bind. simpl. rewrite H. reflexivity. Qed.

Lemma ensure_loaded_run (s : State F) t :
  catalogs s !! catalog_type s = Some t -> ensure_loaded X s = (Ok tt, s).
Proof. intros H. unfold ensure_loaded, _catalog, gets, bind. simpl. rewrite H. reflexivity. Qed.

Lemma current_table_run (s : State F) t :
  catalogs s !! catalog_type s = Some t -> current_table s = (Ok t, s).
Proof. intros H. unfold current_table, _catalog, gets, bind. simpl. rewrite H. reflexivity. Qed.

Lemma read_cached_ok fname (s s' : State F) :
  read_cached X fname s = (Ok tt, s') ->
  exists contents t, files s !! fname = Some contents /\
    read_csv X [("name", DStr)] contents = Ok t /\
    files s' = files s /\ catalog_type s' = catalog_type s /\
    catalogs_configs s' = catalogs_configs s /\
    catalogs s' = <[catalog_type s := t]> (catalogs s).
Proof.
  unfold read_cached, read_file, lift, bind, store_catalog.
  destruct (files s !! fname) as [c|]; [|discriminate].
  destruct (read_csv X _ c) as [t|] eqn:Er; [|discriminate].
  intros H; injection H as <-. exists c, t. simpl. repeat split. exact Er.
Qed.

Lemma build_frame (s s' : State F) r :
  _build X s = (r, s') ->
  catalog_type s' = catalog_type s /\ catalogs_configs s' = catalogs_configs s /\
  catalogs s' = catalogs s.
Proof. intros H. exact (build_pres X s r s' H). Qed.

Lemma load_ok (s s' : State F) cfg :
  catalogs_configs s !! catalog_type s = Some cfg ->
  load X s = (Ok tt, s') ->
  exists contents t, files s' !! filename cfg = Some contents /\
    read_csv X [("name", DStr)] contents = Ok t /\
    catalog_type s' = catalog_type s /\ catalogs s' !! catalog_type s = Some t.
Proof.
  intros Hc H. unfold load, _catalog_full_filename in H.
  rewrite (bind_ok _ _ _ _ _ (config_field_run _ _ _ Hc)) in H.
  unfold _catalog in H. rewrite bind_gets in H. cbv beta in H.
  apply bind_inv_ok in H as [[] [s1 [H1 H2]]].
  assert (Hs1 : catalog_type s1 = catalog_type s /\ catalogs_configs s1 = catalogs_configs s).
  { destruct (catalogs s !! catalog_type s).
    - injection H1 as <-. auto.
    - unfold path_exists in H1. rewrite bind_gets in H1. cbv beta in H1.
      destruct (bool_decide _).
      + injection H1 as <-. auto.
      + destruct (build_frame _ _ _ H1) as (?&?&?). auto. }
  destruct (read_cached_ok _ _ _ H2) as [c [t (Hf & Hr & Hf' & Ht & _ & Hcat)]].
  exists c, t. split; [rewrite Hf'; exact Hf|]. split; [exact Hr|]. split; [rewrite Ht; apply Hs1|].
  rewrite Hcat, (proj1 Hs1). apply lookup_insert_eq.
Qed.

Lemma name_is_true (v : option (cell F)) (k : string) :
  name_is v k = true <-> v = Some (CStr k).
Proof.
  unfold name_is. destruct v as [[s'| | | |]|]; split; try discriminate; intros H.
  - apply String.eqb_eq in H. subst. reflexivity.
  - injection H as ->. apply String.eqb_refl.
Qed.

Lemma name_in_true (v : option (cell F)) (l : list string) :
  name_in v l = true <-> exists k, v = Some (CStr k) /\ In k l.
Proof.
  unfold name_in. destruct v as [[s'| | | |]|]; split; try discriminate;
    try (intros [k [H _]]; discriminate).
  - intros H. apply existsb_eqb_In in H. eauto.
  - intros [k [H Hk]]. injection H as ->. apply existsb_eqb_In. exact Hk.
Qed.

Lemma rows_to_dict_keys (cs : list string) (rs : list (list (cell F)))
    (m0 : gmap string (list (string * cell F))) k :
  is_Some (fold_left (fun (m : gmap string (list (string * cell F))) r => match row_get cs r "name" with
                                 | Some (CStr s) => <[s := combine cs r]> m
                                 | _ => m
                                 end) rs m0 !! k) <->
  is_Some (m0 !! k) \/ exists r, In r rs /\ row_get cs r "name" = Some (CStr k).
Proof.
  revert m0; induction rs as [|r rs IH]; intros m0; simpl.
  - split; [auto|]. intros [H|[r [[] _]]]. exact H.
  - rewrite IH. destruct (row_get cs r "name") as [[s1| | | |]|] eqn:E.
    + rewrite lookup_insert. case_decide as Hk.
      * subst s1. split; [intros _; right; exists r; auto|intros _; left; eauto].
      * split.
        -- intros [H|[r' [Hr' H']]]; [auto|right; eauto].
        -- intros [H|[r' [[<-|Hr'] H']]]; [auto| |right; eauto].
           rewrite E in H'. injection H' as ->. contradiction.
    + split; [intros [H|[r' [Hr' H']]]; [auto|right; eauto]|].
      intros [H|[r' [[<-|Hr'] H']]]; [auto|congruence|right; eauto].
    + split; [intros [H|[r' [Hr' H']]]; [auto|right; eauto]|].
      intros [H|[r' [[<-|Hr'] H']]]; [auto|congruence|right; eauto].
    + split; [intros [H|[r' [Hr' H']]]; [auto|right; eauto]|].
      intros [H|[r' [[<-|Hr'] H']]]; [auto|congruence|right; eauto].
    + split; [intros [H|[r' [Hr' H']]]; [auto|right; eauto]|].
      intros [H|[r' [[<-|Hr'] H']]]; [auto|congruence|right; eauto].
    + split; [intros [H|[r' [Hr' H']]]; [auto|right; eauto]|].
      intros [H|[r' [[<-|Hr'] H']]]; [auto|congruence|right; eauto].
Qed.

Lemma search_by_axis_invalid (axis sigma : F) (s : State F) :
  fle axis (f_of_Z 0) = true \/ fle sigma (f_of_Z 0) = true ->
  search_by_axis X axis sigma s = (Err ValueError, s).
Proof.
  intros [H|H]; unfold search_by_axis, raise.
  - rewrite H. reflexivity.
  - destruct (fle axis (f_of_Z 0)); [reflexivity|]. rewrite H. reflexivity.
Qed.

Lemma filter_none {A} (f : A -> bool) (l : list A) :
  (forall x, In x l -> f x = false) -> List.filter f l = [].
Proof.
  induction l as [|x l IH]; intros H; simpl; [reflexivity|].
  rewrite (H x (or_introl eq_refl)). apply IH. intros y Hy. apply H. right. exact Hy.
Qed.

Lemma search_one_run (s : State F) t i :
  catalogs s !! catalog_type s = Some t -> In "name" (cols t) ->
  search X (One i) s =
    (Ok (Single (match List.filter (fun r => name_is (row_get (cols t) r "name") (py_str i)) (rows t) with
                 | r :: _ => Some (combine (cols t) r)
                 | [] => None
                 end)), s).
Proof.
  intros Ht Hn. unfold search.
  rewrite (bind_ok _ _ _ _ _ (ensure_loaded_run _ _ Ht)). cbv beta zeta.
  rewrite (bind_ok _ _ _ _ _ (current_table_run _ _ Ht)). cbv beta.
  rewrite (proj2 (existsb_eqb_In _ _) Hn).
  destruct (List.filter _ (rows t)); reflexivity.
Qed.

Lemma search_many_run (s : State F) t ids :
  catalogs s !! catalog_type s = Some t -> In "name" (cols t) ->
  search X (Many ids) s =
    (Ok (Batch (rows_to_dict (cols t)
          (List.filter (fun r => name_in (row_get (cols t) r "name") (map py_str ids)) (rows t)))), s).
Proof.
  intros Ht Hn. unfold search.
  rewrite (bind_ok _ _ _ _ _ (ensure_loaded_run _ _ Ht)). cbv beta zeta.
  rewrite (bind_ok _ _ _ _ _ (current_table_run _ _ Ht)). cbv beta.
  rewrite (proj2 (existsb_eqb_In _ _) Hn). reflexivity.
Qed.

Lemma bind_same {A B} (m m' : M F A) (k : A -> M F B) s :
  m s = m' s -> bind m k s = bind m' k s.
Proof. intros H. unfold bind. rewrite H. reflexivity. Qed.

Lemma fetch_frame (s : State F) (cfg : Catalog) (b : bool) r1 s1 :
  catalogs_configs s !! catalog_type s = Some cfg ->
  (if b then ret tt
   else bind (config_field url)
          (fun u => bind (config_field original_filename) (fun p => download X u p))) s
    = (r1, s1) ->
  catalogs_configs s1 = catalogs_configs s /\ catalog_type s1 = catalog_type s /\
  (forall p, p <> original_filename cfg -> files s1 !! p = files s !! p).
Proof.
  intros Hc H. destruct b.
  - injection H as _ <-. auto.
  - rewrite (bind_ok _ _ _ _ _ (config_field_run _ _ _ Hc)) in H. cbv beta in H.
    rewrite (bind_ok _ _ _ _ _ (config_field_run _ _ _ Hc)) in H. cbv beta in H.
    unfold download in H. destruct (urlretrieve X _ _) as [after ok].
    unfold write_file in H. injection H as _ <-. simpl. split; [reflexivity|]. split; [reflexivity|].
    intros p Hp. destruct after.
    + rewrite lookup_insert_ne by congruence. reflexivity.
    + rewrite lookup_delete_ne by congruence. reflexivity.
Qed.

Lemma transform_run (s : State F) (cfg : Catalog) :
  catalogs_configs s !! catalog_type s = Some cfg ->
  _transform_astdys_catalog s =
    (match files s !! original_filename cfg with
     | Some lines => transform_astdys_catalog cfg lines
     | None => Err FileNotFoundError
     end, s).
Proof.
  intros Hc. unfold _transform_astdys_catalog, _astdys_full_filename.
  rewrite (bind_ok _ _ _ _ _ (config_field_run _ _ _ Hc)). cbv beta.
  unfold read_file, bind at 1. destruct (files s !! original_filename cfg); [|reflexivity].
  unfold _catalog_config. rewrite bind_gets. rewrite Hc. reflexivity.
Qed.

End StoreRuns.


(** ** Further lemmas: the store, the transform, dates and epochs *)

Section ExtraStoreLemmas.
Context {F : Type} `{FO : FloatOps F} (X : Externals F).

Lemma load_needs_config (s s' : State F) r :
  load X s = (r, s') -> r <> Err AttributeError ->
  exists cfg, catalogs_configs s !! catalog_type s = Some cfg.
Proof.
  intros H Hr. destruct (catalogs_configs s !! catalog_type s) as [cfg|] eqn:E; [eauto|].
  exfalso. apply Hr. unfold load, _catalog_full_filename, config_field, _catalog_config in H.
  unfold bind at 1 in H. unfold bind at 1 in H. unfold gets in H. rewrite E in H.
  injection H as <-. reflexivity.
Qed.

Lemma read_cached_err fname (s s' : State F) e :
  read_cached X fname s = (Err e, s') -> s' = s.
Proof.
  unfold read_cached, read_file, lift, bind, store_catalog.
  destruct (files s !! fname); [|intros H; injection H as _ <-; reflexivity].
  destruct (read_csv X _ _); [discriminate|]. intros H; injection H as _ <-; reflexivity.
Qed.

Lemma load_branch_pres (cur : option (DataFrame F)) fname :
  preserves files_only
    (match cur with
     | None => bind (path_exists fname) (fun ex => if ex then ret tt else _build X)
     | Some _ => ret tt
     end).
Proof. unfold path_exists. frame_steps; eauto using build_pres with store_frame. Qed.

Lemma load_err_frame (s s' : State F) e :
  load X s = (Err e, s') -> files_only s s'.
Proof.
  intros H. unfold load in H.
  apply bind_inv_err in H as [H|[fname [s1 [H1 H]]]].
  - eapply (config_field_pres files_only); eauto with store_frame.
  - pose proof (config_field_pres files_only filename ltac:(eauto with store_frame)
                  ltac:(eauto with store_frame) _ _ _ H1) as F1.
    unfold _catalog in H. rewrite bind_gets in H. cbv beta in H.
    apply bind_inv_err in H as [H|[u [s2 [H2 H3]]]].
    + eapply files_only_trans; [exact F1|]. eapply load_branch_pres. exact H.
    + apply read_cached_err in H3. subst s'.
      eapply files_only_trans; [exact F1|]. eapply load_branch_pres. exact H2.
Qed.

Lemma load_loads (s s' : State F) :
  load X s = (Ok tt, s') ->
  catalog_type s' = catalog_type s /\ is_Some (catalogs s' !! catalog_type s').
Proof.
  intros H. destruct (load_needs_config _ _ _ H ltac:(discriminate)) as [cfg Hc].
  destruct (load_ok X _ _ _ Hc H) as (c & t & _ & _ & Ht & Hl).
  split; [exact Ht|]. rewrite Ht. eauto.
Qed.

Lemma ensure_loaded_loads (s s' : State F) :
  ensure_loaded X s = (Ok tt, s') -> is_Some (catalogs s' !! catalog_type s').
Proof.
  unfold ensure_loaded, _catalog. rewrite bind_gets.
  destruct (catalogs s !! catalog_type s) eqn:E.
  - intros H. injection H as <-. rewrite E. eauto.
  - intros H. apply (load_loads _ _ H).
Qed.

Lemma search_loaded (a : search_arg) (s : State F) t :
  catalogs s !! catalog_type s = Some t -> snd (search X a s) = s.
Proof.
  intros Ht. unfold search. rewrite (bind_ok _ _ _ _ _ (ensure_loaded_run X _ _ Ht)).
  cbv beta. destruct a; cbv zeta;
    rewrite (bind_ok _ _ _ _ _ (current_table_run _ _ Ht)); cbv beta;
    destruct (existsb _ _); try reflexivity.
  destruct (List.filter _ _); reflexivity.
Qed.

Lemma search_by_axis_loaded (axis sigma : F) (s : State F) t :
  catalogs s !! catalog_type s = Some t -> snd (search_by_axis X axis sigma s) = s.
Proof.
  intros Ht. unfold search_by_axis.
  destruct (fle axis _); [reflexivity|]. destruct (fle sigma _); [reflexivity|].
  rewrite (bind_ok _ _ _ _ _ (ensure_loaded_run X _ _ Ht)). cbv beta zeta.
  rewrite (bind_ok _ _ _ _ _ (current_table_run _ _ Ht)). cbv beta.
  destruct (existsb _ (cols t)); [|reflexivity].
  destruct (existsb _ (rows t)); reflexivity.
Qed.

Lemma get_catalog_loaded (s : State F) t :
  catalogs s !! catalog_type s = Some t -> get_catalog X s = (Ok (Some t), s).
Proof.
  intros Ht. unfold get_catalog. rewrite (bind_ok _ _ _ _ _ (ensure_loaded_run X _ _ Ht)).
  unfold _catalog, gets. rewrite Ht. reflexivity.
Qed.

Lemma rows_to_dict_keep (cs : list string) (post : list (list (cell F)))
    (m : gmap string (list (string * cell F))) k :
  (forall r', In r' post -> row_get cs r' "name" <> Some (CStr k)) ->
  fold_left (fun (m : gmap string (list (string * cell F))) r =>
               match row_get cs r "name" with
               | Some (CStr s) => <[s := combine cs r]> m
               | _ => m
               end) post m !! k = m !! k.
Proof.
  revert m; induction post as [|r post IH]; intros m Hpost; simpl; [reflexivity|].
  rewrite IH by (intros r' Hr'; apply Hpost; right; exact Hr').
  destruct (row_get cs r "name") as [[s1| | | |]|] eqn:E; try reflexivity.
  rewrite lookup_insert_ne; [reflexivity|].
  intros ->. exact (Hpost r (or_introl eq_refl) E).
Qed.

Lemma rows_to_dict_last (cs : list string) (pre post : list (list (cell F))) r k :
  row_get cs r "name" = Some (CStr k) ->
  (forall r', In r' post -> row_get cs r' "name" <> Some (CStr k)) ->
  rows_to_dict cs (pre ++ r :: post) !! k = Some (combine cs r).
Proof.
  intros Hr Hpost. unfold rows_to_dict. rewrite fold_left_app. simpl.
  rewrite rows_to_dict_keep by exact Hpost. rewrite Hr. apply lookup_insert_eq.
Qed.

Lemma build_existing (s : State F) cfg lines :
  catalogs_configs s !! catalog_type s = Some cfg ->
  files s !! original_filename cfg = Some lines ->
  _build X s =
    match transform_astdys_catalog cfg lines with
    | Ok t => (Ok tt, {| catalogs := catalogs s; catalogs_configs := catalogs_configs s;
                         catalog_type := catalog_type s;
                         files := <[filename cfg := to_csv X t]> (files s) |})
    | Err e => (Err e, s)
    end.
Proof.
  intros Hc Hf. unfold _build, _astdys_full_filename.
  rewrite (bind_ok _ _ _ _ _ (config_field_run _ _ _ Hc)). cbv beta.
  unfold path_exists. rewrite bind_gets. cbv beta.
  rewrite bool_decide_eq_true_2 by (rewrite Hf; eauto).
  rewrite (bind_ok (ret tt) _ s tt s eq_refl).
  unfold bind at 1. rewrite (transform_run _ _ Hc), Hf.
  destruct (transform_astdys_catalog cfg lines) as [t|e]; [|reflexivity].
  unfold _catalog_full_filename. rewrite (bind_ok _ _ _ _ _ (config_field_run _ _ _ Hc)).
  reflexivity.
Qed.

Lemma rebuild_as_build (s : State F) cfg :
  catalogs_configs s !! catalog_type s = Some cfg ->
  rebuild X s = _build X {| catalogs := catalogs s; catalogs_configs := catalogs_configs s;
                            catalog_type := catalog_type s;
                            files := delete (original_filename cfg) (files s) |}.
Proof.
  intros Hc. unfold rebuild, _astdys_full_filename.
  rewrite (bind_ok _ _ _ _ _ (config_field_run _ _ _ Hc)). cbv beta.
  unfold path_exists. rewrite bind_gets. cbv beta.
  case_bool_decide as He.
  - reflexivity.
  - rewrite (bind_ok (ret tt) _ s tt s eq_refl).
    rewrite delete_id by (destruct (files s !! original_filename cfg); [exfalso; apply He; eauto|reflexivity]).
    destruct s; reflexivity.
Qed.

Lemma build_missing (s : State F) cfg :
  catalogs_configs s !! catalog_type s = Some cfg ->
  files s !! original_filename cfg = None ->
  _build X s =
    let (after, ok) := urlretrieve X (url cfg) None in
    let s2 := {| catalogs := catalogs s; catalogs_configs := catalogs_configs s;
                 catalog_type := catalog_type s;
                 files := match after with
                          | Some c => <[original_filename cfg := c]> (files s)
                          | None => delete (original_filename cfg) (files s)
                          end |} in
    if ok then
      match after with
      | Some lines =>
          match transform_astdys_catalog cfg lines with
          | Ok t => (Ok tt, {| catalogs := catalogs s; catalogs_configs := catalogs_configs s;
                               catalog_type := catalog_type s;
                               files := <[filename cfg := to_csv X t]> (files s2) |})
          | Err e => (Err e, s2)
          end
      | None => (Err FileNotFoundError, s2)
      end
    else (Err DownloadError, s2).
Proof.
  intros Hc Hf. unfold _build, _astdys_full_filename.
  rewrite (bind_ok _ _ _ _ _ (config_field_run _ _ _ Hc)). cbv beta.
  unfold path_exists. rewrite bind_gets. cbv beta.
  rewrite bool_decide_eq_false_2 by (rewrite Hf; intros [? ?]; discriminate).
  unfold bind at 1.
  rewrite (bind_ok _ _ _ _ _ (config_field_run _ _ _ Hc)). cbv beta.
  rewrite (bind_ok _ _ _ _ _ (config_field_run _ _ _ Hc)). cbv beta.
  unfold download. rewrite Hf.
  destruct (urlretrieve X (url cfg) None) as [after ok]. unfold write_file at 1.
  destruct ok; [|reflexivity].
  set (s2 := {| catalogs := catalogs s; catalogs_configs := catalogs_configs s;
                catalog_type := catalog_type s;
                files := match after with
                         | Some c => <[original_filename cfg := c]> (files s)
                         | None => delete (original_filename cfg) (files s)
                         end |}).
  assert (Hc2 : catalogs_configs s2 !! catalog_type s2 = Some cfg) by exact Hc.
  unfold bind at 1. rewrite (transform_run _ _ Hc2).
  destruct after as [lines|].
  - simpl files at 1. rewrite lookup_insert_eq.
    destruct (transform_astdys_catalog cfg lines) as [t|e]; [|reflexivity].
    unfold _catalog_full_filename. rewrite (bind_ok _ _ _ _ _ (config_field_run _ _ _ Hc2)).
    reflexivity.
  - simpl files at 1. rewrite lookup_delete_eq. reflexivity.
Qed.

End ExtraStoreLemmas.

Section ExtraTableLemmas.
Context {F : Type} `{FO : FloatOps F}.

Lemma mapM_In {A B} (f : A -> option B) (l : list A) (l' : list B) y :
  mapM f l = Some l' -> In y l' -> exists x, In x l /\ f x = Some y.
Proof.
  intros H. apply mapM_Some_1 in H. induction H as [|x y' l l' Hxy Hl IH]; [intros []|].
  intros [->|Hy]; [exists x; split; [left; reflexivity|exact Hxy]|].
  destruct (IH Hy) as [x' [Hx' Hf]]. exists x'. split; [right; exact Hx'|exact Hf].
Qed.

Lemma row_get_In (cs : list string) (r : list (cell F)) c v :
  row_get cs r c = Some v -> In v r.
Proof.
  unfold row_get. destruct (find _ _) as [p|] eqn:E; [|discriminate].
  intros H; injection H as <-. apply find_some in E as [Hp _].
  destruct p as [c' v']. simpl. eapply in_combine_r. exact Hp.
Qed.

Lemma strip_quote_str_free (s : string) :
  ~ In "'"%char (list_ascii_of_string (strip_quote_str s)).
Proof.
  unfold strip_quote_str. rewrite list_ascii_of_string_of_list_ascii.
  rewrite List.filter_In. intros [_ H]. rewrite Ascii.eqb_refl in H. discriminate.
Qed.

Lemma convert_cell_not_str (v w : cell F) s :
  convert_cell v = Some w -> w <> CStr s.
Proof.
  unfold convert_cell, astype_float. destruct v as [s0|x|z|b|]; simpl.
  - destruct (py_float s0); simpl; [|discriminate]. intros H; injection H as <-. discriminate.
  - intros H; injection H as <-. discriminate.
  - intros H; injection H as <-. discriminate.
  - intros H; injection H as <-. discriminate.
  - intros H; injection H as <-. discriminate.
Qed.

Lemma strip_quotes_free (t : DataFrame F) : quote_free (strip_quotes t).
Proof.
  intros r s Hr Hs. simpl in Hr. apply in_map_iff in Hr as [r0 [<- _]].
  apply in_map_iff in Hs as [v [Hv _]]. destruct v as [s0| | | |]; try discriminate.
  injection Hv as <-. apply strip_quote_str_free.
Qed.

Lemma drop_del_free (t : DataFrame F) : quote_free t -> quote_free (drop_del t).
Proof.
  intros Ht r s Hr Hs. simpl in Hr. apply in_map_iff in Hr as [r0 [<- Hr0]].
  apply in_map_iff in Hs as [[c v] [Hv Hp]]. simpl in Hv. subst v.
  apply List.filter_In in Hp as [Hp _]. apply in_combine_r in Hp.
  exact (Ht r0 s Hr0 Hp).
Qed.

Lemma convert_column_free (c : string) (t t' : DataFrame F) :
  quote_free t -> convert_column c t = Ok t' -> quote_free t'.
Proof.
  intros Ht H. unfold convert_column in H. destruct (existsb _ _); [|discriminate].
  destruct (mapM _ (rows t)) as [rs|] eqn:Hm; [|discriminate]. injection H as <-.
  intros r' s Hr' Hs. simpl in Hr'.
  destruct (mapM_In _ _ _ _ Hm Hr') as [r [Hr Hset]].
  destruct (mapM_In _ _ _ _ Hset Hs) as [[c' v] [Hp Hv]]. simpl in Hv.
  destruct (String.eqb c' c).
  - exfalso. exact (convert_cell_not_str _ _ s Hv eq_refl).
  - injection Hv as ->. apply in_combine_r in Hp. exact (Ht r s Hr Hp).
Qed.

Lemma convert_columns_free (cs : list string) (t t' : DataFrame F) :
  quote_free t -> convert_columns cs t = Ok t' -> quote_free t'.
Proof.
  revert t; induction cs as [|c cs IH]; intros t Ht H; simpl in H.
  - injection H as <-. exact Ht.
  - destruct (convert_column c t) as [t1|] eqn:E; simpl in H; [|discriminate].
    eapply IH; [|exact H]. eapply convert_column_free; eauto.
Qed.

Lemma select_columns_free (names : list string) (t t' : DataFrame F) :
  quote_free t -> select_columns names t = Ok t' -> quote_free t'.
Proof.
  intros Ht H. unfold select_columns in H.
  destruct (mapM _ (rows t)) as [rs|] eqn:Hm; [|discriminate]. injection H as <-.
  intros r' s Hr' Hs. simpl in Hr'.
  destruct (mapM_In _ _ _ _ Hm Hr') as [r [Hr Hsel]].
  destruct (mapM_In _ _ _ _ Hsel Hs) as [n [_ Hn]].
  exact (Ht r s Hr (row_get_In _ _ _ _ Hn)).
Qed.

Lemma epoch_last_free (t t' : DataFrame F) :
  quote_free t -> epoch_last t = Ok t' -> quote_free t'.
Proof.
  intros Ht H. unfold epoch_last in H. destruct (existsb _ _).
  - eapply select_columns_free; eauto.
  - injection H as <-. exact Ht.
Qed.




End ExtraTableLemmas.

Module StrftimeFacts.
Import PyDateTime PyStrftime.
Local Open Scope Z_scope.

Lemma digits_value_app (s1 s2 : string) acc :
  digits_value (s1 ++ s2) acc =
  match digits_value s1 acc with Some v => digits_value s2 v | None => None end.
Proof.
  revert acc; induction s1 as [|a s1 IH]; intros acc; simpl; [reflexivity|].
  destruct (QFloat.digit_val a); [apply IH|reflexivity].
Qed.

Lemma digit_val_digit (n : Z) : QFloat.digit_val (digit n) = Some (n mod 10).
Proof.
  unfold QFloat.digit_val, digit.
  pose proof (Z.mod_pos_bound n 10 ltac:(lia)) as Hb.
  rewrite nat_ascii_embedding by lia.
  rewrite Nat2Z.inj_add, Z2Nat.id by lia.
  replace (Z.of_nat 48 + n mod 10 - 48) with (n mod 10) by lia.
  replace ((0 <=? n mod 10) && (n mod 10 <=? 9)) with true; [reflexivity|].
  symmetry. apply andb_true_iff. split; apply Z.leb_le; lia.
Qed.

Lemma digits_value_pad (w : nat) (n acc : Z) :
  digits_value (pad w n) acc = Some (acc * 10 ^ Z.of_nat w + n mod 10 ^ Z.of_nat w).
Proof.
  revert n acc; induction w as [|w IH]; intros n acc.
  - simpl. rewrite Z.mod_1_r. f_equal. lia.
  - cbn [pad]. rewrite digits_value_app, IH. cbn [digits_value]. rewrite digit_val_digit.
    f_equal. rewrite Nat2Z.inj_succ, Z.pow_succ_r by lia.
    rewrite (Z.rem_mul_r n 10 (10 ^ Z.of_nat w)) by (try lia; apply Z.pow_pos_nonneg; lia).
    ring.
Qed.

Lemma length_str_app (s1 s2 : string) :
  String.length (s1 ++ s2) = (String.length s1 + String.length s2)%nat.
Proof. induction s1 as [|a s1 IH]; simpl; [reflexivity|]. rewrite IH. reflexivity. Qed.

Lemma length_pad (w : nat) (n : Z) : String.length (pad w n) = w.
Proof.
  revert n; induction w as [|w IH]; intros n; [reflexivity|].
  cbn [pad]. rewrite length_str_app, IH. cbn [String.length]. lia.
Qed.

Lemma int_of_digits_pad (w : nat) (n : Z) :
  0 <= n < 10 ^ Z.of_nat (S w) -> int_of_digits (pad (S w) n) = Some n.
Proof.
  intros Hn. unfold int_of_digits.
  destruct (pad (S w) n) eqn:E.
  - pose proof (length_pad (S w) n) as Hl. rewrite E in Hl. discriminate.
  - rewrite <- E, digits_value_pad. f_equal. rewrite Z.mod_small by lia. lia.
Qed.

Lemma is_leap_400 (q y : Z) : is_leap (q * 400 + y) = is_leap y.
Proof.
  unfold is_leap.
  replace (q * 400 + y) with (y + (q * 100) * 4) by ring. rewrite Z.mod_add by lia.
  replace (y + (q * 100) * 4) with (y + (q * 4) * 100) by ring. rewrite Z.mod_add by lia.
  replace (y + (q * 4) * 100) with (y + q * 400) by ring. rewrite Z.mod_add by lia.
  reflexivity.
Qed.

Lemma cycle_dates_ok_spec (k : nat) (r : Z) :
  cycle_dates_ok k r = true ->
  forall i, r <= i < r + Z.of_nat k ->
  let '(y, m, d) := ord2ymd_cycle i in
  1 <= m <= 12 /\ 1 <= d <= days_in_month y m.
Proof.
  revert r; induction k as [|k IH]; intros r H i Hi; [lia|].
  simpl in H. destruct (ord2ymd_cycle r) as [[y m] d] eqn:E.
  apply andb_true_iff in H as [Hh Ht].
  destruct (Z.eq_dec i r) as [->|Hne].
  - rewrite E. rewrite !andb_true_iff, !Z.leb_le in Hh. lia.
  - apply (IH (r + 1) Ht). lia.
Qed.

Lemma cycle_dates : cycle_dates_ok (Pos.to_nat 146097) 0 = true.
Proof. vm_compute. reflexivity. Qed.

Lemma ord2ymd_dates (n : Z) :
  let '(y, m, d) := ord2ymd n in 1 <= m <= 12 /\ 1 <= d <= days_in_month y m.
Proof.
  unfold ord2ymd.
  pose proof (Z.mod_pos_bound (n - 1) DI400Y ltac:(unfold DI400Y; lia)) as Hb.
  pose proof (cycle_dates_ok_spec _ _ cycle_dates ((n - 1) mod DI400Y)
                ltac:(unfold DI400Y in *; lia)) as H.
  destruct (ord2ymd_cycle ((n - 1) mod DI400Y)) as [[y m] d].
  unfold days_in_month in *. rewrite is_leap_400. exact H.
Qed.

End StrftimeFacts.

Module DateLemmas.
Import PyDateTime PyStrftime StrftimeFacts.
Local Open Scope Z_scope.

Lemma ord2ymd_year_range (n : Z) :
  1 <= n <= MAXORDINAL -> let '(y, _, _) := ord2ymd n in 1 <= y <= 9999.
Proof.
  intros Hn.
  assert (Hlo : let '(y, _, _) := ord2ymd n in 1 <= y).
  { destruct (Z.eq_dec n 1) as [->|Hne]; [vm_compute; discriminate|].
    pose proof (DateTimeFacts.ord2ymd_lt 1 n ltac:(lia)) as H.
    replace (ord2ymd 1) with (1, 1, 1) in H by (vm_compute; reflexivity).
    destruct (ord2ymd n) as [[y m] d]. cbn [lex_lt] in H.
    repeat rewrite ?Bool.orb_true_iff, ?Bool.andb_true_iff, ?Z.ltb_lt, ?Z.eqb_eq in H. lia. }
  assert (Hhi : let '(y, _, _) := ord2ymd n in y <= 9999).
  { destruct (Z.eq_dec n MAXORDINAL) as [->|Hne]; [vm_compute; discriminate|].
    pose proof (DateTimeFacts.ord2ymd_lt n MAXORDINAL ltac:(lia)) as H.
    replace (ord2ymd MAXORDINAL) with (9999, 12, 31) in H by (vm_compute; reflexivity).
    destruct (ord2ymd n) as [[y m] d]. cbn [lex_lt] in H.
    repeat rewrite ?Bool.orb_true_iff, ?Bool.andb_true_iff, ?Z.ltb_lt, ?Z.eqb_eq in H. lia. }
  destruct (ord2ymd n) as [[y m] d]. lia.
Qed.

Lemma add_timedelta_valid (b : datetime) (u : Z) (d : datetime) :
  add_timedelta b u = Ok d -> check_fields d = true.
Proof.
  unfold add_timedelta.
  set (t := ((ymd2ord (year b) (month b) (day b) - 1) * 86400 + hour b * 3600 +
             minute b * 60 + second b) * 1000000 + microsecond b + u).
  destruct ((t / US_PER_DAY + 1 <? 1) || (MAXORDINAL <? t / US_PER_DAY + 1)) eqn:Eo;
    [discriminate|].
  apply orb_false_iff in Eo as [E1 E2]. apply Z.ltb_ge in E1, E2.
  pose proof (ord2ymd_year_range (t / US_PER_DAY + 1) ltac:(lia)) as Hy.
  pose proof (ord2ymd_dates (t / US_PER_DAY + 1)) as Hd.
  destruct (ord2ymd (t / US_PER_DAY + 1)) as [[y m] dd].
  intros H. injection H as <-.
  assert (HD : 0 < US_PER_DAY) by (unfold US_PER_DAY; lia).
  pose proof (Z.mod_pos_bound t US_PER_DAY HD) as Hr.
  set (r := t mod US_PER_DAY) in *.
  pose proof (Z.div_mod r 1000000 ltac:(lia)). pose proof (Z.mod_pos_bound r 1000000 ltac:(lia)).
  set (sc := r / 1000000) in *.
  assert (Hs : 0 <= sc < 86400) by (unfold US_PER_DAY in *; lia).
  pose proof (Z.div_mod sc 3600 ltac:(lia)). pose proof (Z.mod_pos_bound sc 3600 ltac:(lia)).
  pose proof (Z.div_mod (sc mod 3600) 60 ltac:(lia)).
  pose proof (Z.mod_pos_bound (sc mod 3600) 60 ltac:(lia)).
  pose proof (Z.mod_pos_bound sc 60 ltac:(lia)).
  unfold check_fields; cbn [year month day hour minute second microsecond].
  repeat rewrite andb_true_iff. rewrite !Z.leb_le. lia.
Qed.

Lemma mjd_datetime_fields (m : Q) (d : datetime) :
  convert_mjd_to_datetime m = Ok d -> check_fields d = true.
Proof.
  unfold convert_mjd_to_datetime, rbind.
  destruct (timedelta_days m) as [u|]; [|discriminate]. apply add_timedelta_valid.
Qed.

Lemma base_ordinal : ymd2ord 1858 11 17 = 678576.
Proof. vm_compute. reflexivity. Qed.

End DateLemmas.


Section EpochLemmas.
Context {F : Type} `{FO : FloatOps F} (X : Externals F).

Lemma find_app {A} (f : A -> bool) (l1 l2 : list A) :
  find f (l1 ++ l2) = match find f l1 with Some x => Some x | None => find f l2 end.
Proof. induction l1 as [|x l1 IH]; simpl; [reflexivity|]. destruct (f x); auto. Qed.

Lemma find_absent {A} (f : A -> bool) (l : list A) :
  (forall x, In x l -> f x = false) -> find f l = None.
Proof.
  induction l as [|x l IH]; intros H; simpl; [reflexivity|].
  rewrite (H x (or_introl eq_refl)). apply IH. intros y Hy. apply H. right. exact Hy.
Qed.

Lemma find_rev_key (l : list (string * cell F)) k :
  NoDup (map fst l) ->
  find (fun p => String.eqb (fst p) k) (rev l) = find (fun p => String.eqb (fst p) k) l.
Proof.
  induction l as [|[c v] l IH]; intros Hnd; simpl; [reflexivity|].
  inversion Hnd as [|? ? Hc Hnd']; subst.
  rewrite find_app, IH by exact Hnd'. simpl.
  destruct (String.eqb c k) eqn:E; [|destruct (find _ l); reflexivity].
  apply String.eqb_eq in E. subst c.
  rewrite find_absent; [reflexivity|].
  intros [c' v'] Hin. simpl. apply String.eqb_neq. intros ->.
  apply Hc. apply list_elem_of_In. apply (in_map fst _ _ Hin).
Qed.

Lemma NoDup_map_fst_combine (cs : list string) (r : list (cell F)) :
  NoDup cs -> NoDup (map fst (combine cs r)).
Proof.
  revert r; induction cs as [|c cs IH]; intros r Hnd; [constructor|].
  destruct r as [|v r]; simpl; [constructor|].
  inversion Hnd as [|? ? Hc Hnd']; subst. constructor; [|apply IH; exact Hnd'].
  intros Hin. rewrite list_elem_of_In in Hin. apply in_map_iff in Hin as [[c' v'] [Heq Hin]]. simpl in Heq. subst c'.
  apply Hc. apply list_elem_of_In. exact (in_combine_l _ _ _ _ Hin).
Qed.

(** [row.to_dict()[k]] is [row[k]] when the column names are unique. *)
Lemma dict_get_combine (cs : list string) (r : list (cell F)) k :
  NoDup cs -> dict_get k (combine cs r) = row_get cs r k.
Proof.
  intros Hnd. unfold dict_get, row_get. rewrite find_rev_key; [reflexivity|].
  apply NoDup_map_fst_combine. exact Hnd.
Qed.

Lemma row_get_absent (cs : list string) (r : list (cell F)) k :
  ~ In k cs -> row_get cs r k = None.
Proof.
  intros Hk. unfold row_get. rewrite find_absent; [reflexivity|].
  intros [c v] Hin. simpl. apply String.eqb_neq. intros ->.
  apply Hk. exact (in_combine_l _ _ _ _ Hin).
Qed.

Lemma py_str_one : py_str (IInt 1) = "1"%string.
Proof. reflexivity. Qed.

Lemma search_one_no_name (s : State F) t i :
  catalogs s !! catalog_type s = Some t -> ~ In "name"%string (cols t) ->
  search X (One i) s = (Err KeyError, s).
Proof.
  intros Ht Hn. unfold search.
  rewrite (bind_ok _ _ _ _ _ (ensure_loaded_run X _ _ Ht)). cbv beta zeta.
  rewrite (bind_ok _ _ _ _ _ (current_table_run _ _ Ht)). cbv beta.
  destruct (existsb (String.eqb "name") (cols t)) eqn:E; [|reflexivity].
  exfalso. apply Hn. apply existsb_eqb_In. exact E.
Qed.

Lemma catalog_epoch_run (s : State F) t :
  catalog_type s = "osculating"%string -> catalogs s !! "osculating"%string = Some t ->
  In "name"%string (cols t) ->
  catalog_epoch X s =
    match match List.filter (fun r => name_is (row_get (cols t) r "name") "1") (rows t) with
          | r :: _ => Some (combine (cols t) r)
          | [] => None
          end with
    | Some d => match dict_get "epoch" d with
                | Some v => (Ok v, s)
                | None => (Err ValueError, s)
                end
    | None => (Err ValueError, s)
    end.
Proof.
  intros Hk Ht Hn. rewrite <- Hk in Ht. unfold catalog_epoch. rewrite (bind_gets (F:=F) catalog_type). cbv beta.
  rewrite Hk. rewrite String.eqb_refl. cbn [negb].
  rewrite (bind_ok _ _ _ _ _ (ensure_loaded_run X _ _ Ht)).
  rewrite (bind_ok _ _ _ _ _ (search_one_run X _ _ (IInt 1) Ht Hn)).
  rewrite py_str_one.
  destruct (List.filter _ (rows t)) as [|r rs]; [reflexivity|].
  destruct (dict_get _ _); reflexivity.
Qed.

Lemma epoch_then (fv : F -> Q) (s : State F) (v : cell F) s1 :
  catalog_epoch X s = (Ok v, s1) ->
  get_catalog_datetime X fv s =
    (let! q := timedelta_arg fv v in PyDateTime.convert_mjd_to_datetime q, s1) /\
  get_catalog_time X fv s =
    (let! q := timedelta_arg fv v in PyStrftime.convert_mjd_to_date q, s1).
Proof.
  intros H. unfold get_catalog_datetime, get_catalog_time.
  rewrite !(bind_ok _ _ _ _ _ H). split; reflexivity.
Qed.

Lemma epoch_fails (fv : F -> Q) (s : State F) e s1 :
  catalog_epoch X s = (Err e, s1) ->
  get_catalog_datetime X fv s = (Err e, s1) /\ get_catalog_time X fv s = (Err e, s1).
Proof.
  intros H. unfold get_catalog_datetime, get_catalog_time.
  rewrite !(bind_err _ _ _ _ _ H). split; reflexivity.
Qed.

End EpochLemmas.

(** ** Claims about the store and the queries *)

Section StoreClaims.
Context {F : Type} `{FO : FloatOps F} (X : Externals F).

(** C10. [search], [search_by_axis] and [get_catalog] keep the
    [catalog_type] selector, the descriptors and the tables of every other
    catalog type; the only change to the tables is that the implicit load
    may set the entry of the current catalog type ([current_entry_only]),
    whatever the outcome, also when an exception is raised. *)
Theorem queries_frame (s s' : State F) :
  (forall (a : search_arg) (r : result search_result),
     search X a s = (r, s') -> current_entry_only s s') /\
  (forall (axis sigma : F) (r : result (DataFrame F)),
     search_by_axis X axis sigma s = (r, s') -> current_entry_only s s') /\
  (forall (r : result (option (DataFrame F))),
     get_catalog X s = (r, s') -> current_entry_only s s').
Proof.
  split; [|split].
  - intros a r. apply search_pres.
  - intros axis sigma r. apply search_by_axis_pres.
  - intros r. apply get_catalog_pres.
Qed.

(** C3. The argument check comes first: [search_by_axis] raises the
    ValueError of its validation, leaving the state as it is, when
    [axis <= 0] or [sigma <= 0], whatever the state.  With a table loaded for
    the current catalog type that has an ['a'] column of numbers (or NaN), it
    fails with ValueError exactly then; otherwise it returns the table of the
    rows, in their order, whose ['a'] value [x] has
    [axis - sigma <= x <= axis + sigma], the same columns, and no rows (not
    an error) when no row matches.  A number is a float, or an integer or
    boolean read as one ([numeric_value]). *)
Theorem search_by_axis_spec (axis sigma : F) :
  (forall s : State F,
     fle axis (f_of_Z 0) = true \/ fle sigma (f_of_Z 0) = true ->
     search_by_axis X axis sigma s = (Err ValueError, s)) /\
  (forall (s : State F) (t : DataFrame F),
     catalogs s !! catalog_type s = Some t -> In "a" (cols t) ->
     (forall r, In r (rows t) -> a_is_text (row_get (cols t) r "a") = false) ->
     (fst (search_by_axis X axis sigma s) = Err ValueError <->
        fle axis (f_of_Z 0) = true \/ fle sigma (f_of_Z 0) = true) /\
     (fle axis (f_of_Z 0) = false -> fle sigma (f_of_Z 0) = false ->
        exists t', search_by_axis X axis sigma s = (Ok t', s) /\
          cols t' = cols t /\
          rows t' = List.filter (fun r => a_in_range (fsub axis sigma) (fadd axis sigma)
                                            (row_get (cols t) r "a")) (rows t) /\
          (forall r, In r (rows t') <->
             In r (rows t) /\ exists v x, row_get (cols t) r "a" = Some v /\
               numeric_value v = Some x /\
               fle (fsub axis sigma) x = true /\ fle x (fadd axis sigma) = true) /\
          ((forall r, In r (rows t) -> forall v x, row_get (cols t) r "a" = Some v ->
              numeric_value v = Some x ->
              fle (fsub axis sigma) x = false \/ fle x (fadd axis sigma) = false) ->
           rows t' = []))).
Proof.
  split; [apply search_by_axis_invalid|].
  intros s t Ht Ha Htext.
    assert (Hrun : fle axis (f_of_Z 0) = false -> fle sigma (f_of_Z 0) = false ->
      search_by_axis X axis sigma s =
        (Ok {| cols := cols t;
               rows := List.filter (fun r => a_in_range (fsub axis sigma) (fadd axis sigma)
                                               (row_get (cols t) r "a")) (rows t) |}, s)).
    { intros H1 H2. unfold search_by_axis. rewrite H1, H2.
      rewrite (bind_ok _ _ _ _ _ (ensure_loaded_run X _ _ Ht)). cbv beta zeta.
      rewrite (bind_ok _ _ _ _ _ (current_table_run _ _ Ht)). cbv beta.
      rewrite (proj2 (existsb_eqb_In _ _) Ha).
      destruct (existsb _ (rows t)) eqn:E.
      - apply existsb_exists in E as [r [Hr Hr']]. rewrite Htext in Hr' by exact Hr.
        discriminate.
      - reflexivity. }
    split.
    + split.
      * intros H. destruct (fle axis (f_of_Z 0)) eqn:H1; [auto|].
        destruct (fle sigma (f_of_Z 0)) eqn:H2; [auto|].
        rewrite (Hrun eq_refl eq_refl) in H. discriminate.
      * intros H. rewrite (search_by_axis_invalid X axis sigma s H). reflexivity.
    + intros H1 H2. eexists. split; [exact (Hrun H1 H2)|]. simpl.
      split; [reflexivity|]. split; [reflexivity|]. split.
      * intros r. rewrite filter_In. unfold a_in_range.
        destruct (row_get (cols t) r "a") as [c|].
        -- destruct (numeric_value c) as [x|] eqn:Ec.
           ++ split.
              ** intros [Hr Hx]. apply andb_true_iff in Hx as [Hx1 Hx2].
                 split; [exact Hr|]. exists c, x. auto.
              ** intros [Hr [c' [x' [Hc [Hx [Hx1 Hx2]]]]]]. injection Hc as <-.
                 rewrite Ec in Hx. injection Hx as <-. rewrite Hx1, Hx2. auto.
           ++ split; [intros [_ Hx]; discriminate|].
              intros [_ [c' [x' [Hc [Hx _]]]]]. injection Hc as <-. congruence.
        -- split; [intros [_ Hx]; discriminate|]. intros [_ [c' [x' [Hc _]]]]. discriminate.
      * intros Hnone.
        destruct (List.filter _ (rows t)) as [|r rs'] eqn:E; [reflexivity|]. exfalso.
        assert (Hin : In r (r :: rs')) by (left; reflexivity).
        rewrite <- E, filter_In in Hin. destruct Hin as [Hr Hin]. unfold a_in_range in Hin.
        destruct (row_get (cols t) r "a") as [c|] eqn:Ex; [|discriminate].
        destruct (numeric_value c) as [x|] eqn:Ec; [|discriminate].
        apply andb_true_iff in Hin as [Hx1 Hx2].
        destruct (Hnone r Hr c x Ex Ec) as [H|H]; congruence.
Qed.

(** C4. With a table loaded for the current catalog type that has a
    ['name'] column, [search] compares the ['name'] cells by string equality
    with [str(identifier)] ([py_str]).  A single identifier some row matches
    gives that row as a mapping; one no row matches gives [None], not an
    exception.  A list of identifiers gives a mapping whose keys are exactly
    the identifiers (as strings) some row matches; the others are left
    out.  The state is unchanged. *)
Theorem search_match_spec (s : State F) (t : DataFrame F) :
  catalogs s !! catalog_type s = Some t -> In "name" (cols t) ->
  (forall i : ident,
     (exists r, In r (rows t) /\ row_get (cols t) r "name" = Some (CStr (py_str i))) ->
     exists r, search X (One i) s = (Ok (Single (Some (combine (cols t) r))), s) /\
       In r (rows t) /\ row_get (cols t) r "name" = Some (CStr (py_str i))) /\
  (forall i : ident,
     (forall r, In r (rows t) -> row_get (cols t) r "name" <> Some (CStr (py_str i))) ->
     search X (One i) s = (Ok (Single None), s)) /\
  (forall ids : list ident, exists m,
     search X (Many ids) s = (Ok (Batch m), s) /\
     forall k, is_Some (m !! k) <->
       In k (map py_str ids) /\
       exists r, In r (rows t) /\ row_get (cols t) r "name" = Some (CStr k)).
Proof.
  intros Ht Hn. split; [|split].
  - intros i [r0 [Hr0 Hn0]]. rewrite (search_one_run X _ _ _ Ht Hn).
    destruct (List.filter _ (rows t)) as [|r rs] eqn:E.
    + exfalso. assert (Hin : In r0 (List.filter (fun r => name_is (row_get (cols t) r "name") (py_str i)) (rows t))).
      { apply filter_In. split; [exact Hr0|]. apply name_is_true. exact Hn0. }
      rewrite E in Hin. exact Hin.
    + assert (Hin : In r (r :: rs)) by (left; reflexivity).
      rewrite <- E, filter_In, name_is_true in Hin. destruct Hin as [Hr Hnr].
      exists r. auto.
  - intros i Hno. rewrite (search_one_run X _ _ _ Ht Hn).
    rewrite filter_none; [reflexivity|].
    intros r Hr. destruct (name_is _ _) eqn:E; [|reflexivity].
    apply name_is_true in E. exfalso. exact (Hno r Hr E).
  - intros ids. eexists. split; [exact (search_many_run X _ _ _ Ht Hn)|].
    intros k. unfold rows_to_dict. rewrite rows_to_dict_keys.
    rewrite lookup_empty. split.
    + intros [H|[r [Hr Hk]]]; [destruct H as [? H]; discriminate|].
      apply filter_In in Hr as [Hr Hin]. rewrite Hk in Hin. simpl in Hin.
      apply existsb_eqb_In in Hin. eauto.
    + intros [Hk [r [Hr Hnr]]]. right. exists r. split; [|exact Hnr].
      apply filter_In. split; [exact Hr|]. rewrite Hnr. simpl.
      apply existsb_eqb_In. exact Hk.
Qed.

(** C9. When several rows of the loaded table carry the searched name, a
    single-identifier [search] returns the first of them in row order. *)
Theorem search_first_match (s : State F) (t : DataFrame F) (i : ident)
    (pre post : list (list (cell F))) (r : list (cell F)) :
  catalogs s !! catalog_type s = Some t -> In "name" (cols t) ->
  rows t = pre ++ r :: post ->
  (forall r', In r' pre -> row_get (cols t) r' "name" <> Some (CStr (py_str i))) ->
  row_get (cols t) r "name" = Some (CStr (py_str i)) ->
  search X (One i) s = (Ok (Single (Some (combine (cols t) r))), s).
Proof.
  intros Ht Hn Hrows Hpre Hr. rewrite (search_one_run X _ _ _ Ht Hn), Hrows.
  rewrite List.filter_app, filter_none.
  - simpl. rewrite (proj2 (name_is_true _ _) Hr). reflexivity.
  - intros r' Hr'. destruct (name_is _ _) eqn:E; [|reflexivity].
    apply name_is_true in E. exfalso. exact (Hpre r' Hr' E).
Qed.

(** C5. [set_type(k)] with a key [k] that has no descriptor raises the
    ValueError of the check and leaves the state, the selector included,
    as it was.  With a known key it sets the selector and runs [load] on the
    result; when that returns, the selector is [k] and the table of [k] is
    the one read from the file now at the descriptor's [filename]. *)
Theorem set_type_spec (s : State F) (k : string) :
  (catalogs_configs s !! k = None -> set_type X k s = (Err ValueError, s)) /\
  (forall cfg, catalogs_configs s !! k = Some cfg ->
     set_type X k s =
       load X {| catalogs := catalogs s; catalogs_configs := catalogs_configs s;
                 catalog_type := k; files := files s |} /\
     (forall s', set_type X k s = (Ok tt, s') ->
        catalog_type s' = k /\
        exists contents t, files s' !! filename cfg = Some contents /\
          read_csv X [("name", DStr)] contents = Ok t /\ catalogs s' !! k = Some t)).
Proof.
  split.
  - intros Hk. unfold set_type. rewrite bind_gets. cbv beta.
    rewrite bool_decide_false; [reflexivity|]. rewrite Hk. intros [? H]; discriminate.
  - intros cfg Hk.
    assert (Heq : set_type X k s =
       load X {| catalogs := catalogs s; catalogs_configs := catalogs_configs s;
                 catalog_type := k; files := files s |}).
    { unfold set_type. rewrite bind_gets. cbv beta.
      rewrite bool_decide_true by (rewrite Hk; eauto). reflexivity. }
    split; [exact Heq|]. intros s' Hs'. rewrite Heq in Hs'.
    apply (load_ok X _ s' cfg) in Hs'; [|exact Hk].
    destruct Hs' as (c & t & H1 & H2 & H3 & H4).
    simpl in H3, H4. split; [exact H3|]. eauto.
Qed.

(** C6 (as the code has it).  With the descriptor [cfg] of the current
    catalog type, [load] builds only when no table is in memory for it and
    the cached CSV is missing; otherwise it goes straight to the read, which
    raises FileNotFoundError if the CSV is missing.  The read
    ([read_cached]) always happens after that: [read_csv] of the CSV with
    the ['name'] column as [str], stored as the entry of the current type. *)
Theorem load_spec (s : State F) (cfg : Catalog) :
  catalogs_configs s !! catalog_type s = Some cfg ->
  (is_Some (catalogs s !! catalog_type s) \/ is_Some (files s !! filename cfg) ->
     load X s = read_cached X (filename cfg) s) /\
  (is_Some (catalogs s !! catalog_type s) -> files s !! filename cfg = None ->
     load X s = (Err FileNotFoundError, s)) /\
  (catalogs s !! catalog_type s = None -> files s !! filename cfg = None ->
     load X s = bind (_build X) (fun _ => read_cached X (filename cfg)) s) /\
  (forall s', load X s = (Ok tt, s') ->
     exists contents t, files s' !! filename cfg = Some contents /\
       read_csv X [("name", DStr)] contents = Ok t /\
       catalog_type s' = catalog_type s /\ catalogs s' !! catalog_type s = Some t).
Proof.
  intros Hc.
  assert (Hstart : load X s =
    bind (match catalogs s !! catalog_type s with
          | None => bind (path_exists (filename cfg)) (fun ex => if ex then ret tt else _build X)
          | Some _ => ret tt
          end) (fun _ => read_cached X (filename cfg)) s).
  { unfold load, _catalog_full_filename.
    rewrite (bind_ok _ _ _ _ _ (config_field_run _ _ _ Hc)). cbv beta.
    unfold _catalog. rewrite bind_gets. reflexivity. }
  assert (H1 : is_Some (catalogs s !! catalog_type s) \/ is_Some (files s !! filename cfg) ->
     load X s = read_cached X (filename cfg) s).
  { intros Hor. rewrite Hstart. rewrite (bind_ok _ _ _ tt s); [reflexivity|].
    destruct (catalogs s !! catalog_type s) eqn:E; [reflexivity|].
    destruct Hor as [[? H]|Hf]; [discriminate|].
    unfold path_exists. rewrite bind_gets. rewrite bool_decide_true by exact Hf. reflexivity. }
  split; [exact H1|]. split; [|split].
  - intros Hl Hf. rewrite (H1 (or_introl Hl)).
    unfold read_cached, read_file, bind at 1. rewrite Hf. reflexivity.
  - intros Hl Hf. rewrite Hstart, Hl. apply bind_same.
    unfold path_exists. rewrite bind_gets. rewrite bool_decide_false; [reflexivity|].
    rewrite Hf. intros [? H]; discriminate.
  - intros s' Hs'. destruct (load_ok X _ _ cfg Hc Hs') as (c & t & ?&?&?&?). eauto 7.
Qed.

(** C7. Let [cfg] be the descriptor of the current catalog type, with
    distinct raw and CSV paths.  A [_build] that does not return normally
    leaves the CSV file as it was; one that returns has written to the CSV
    [to_csv t], where [t] is the successful transform of the raw file's
    text. *)
Theorem build_no_partial_csv (s s' : State F) (cfg : Catalog) (r : result unit) :
  catalogs_configs s !! catalog_type s = Some cfg ->
  original_filename cfg <> filename cfg ->
  _build X s = (r, s') ->
  (r <> Ok tt -> files s' !! filename cfg = files s !! filename cfg) /\
  (r = Ok tt -> exists lines t, files s' !! original_filename cfg = Some lines /\
     transform_astdys_catalog cfg lines = Ok t /\
     files s' !! filename cfg = Some (to_csv X t)).
Proof.
  intros Hc Hneq Hb. unfold _build, _astdys_full_filename in Hb.
  rewrite (bind_ok _ _ _ _ _ (config_field_run _ _ _ Hc)) in Hb. cbv beta in Hb.
  unfold path_exists in Hb. rewrite bind_gets in Hb. cbv beta in Hb.
  destruct r as [[]|e].
  - split; [intros H; contradiction H; reflexivity|intros _].
    apply bind_inv_ok in Hb as [a [s1 [Hf Hrest]]].
    eapply fetch_frame in Hf as (Hc1 & Ht1 & Hp1); [|exact Hc].
    assert (Hc1' : catalogs_configs s1 !! catalog_type s1 = Some cfg) by (rewrite Hc1, Ht1; exact Hc).
    apply bind_inv_ok in Hrest as [t [s2 [Htr Hrest]]].
    rewrite (transform_run _ _ Hc1') in Htr.
    destruct (files s1 !! original_filename cfg) as [lines|] eqn:El; [|discriminate].
    injection Htr as Htr <-.
    unfold _catalog_full_filename in Hrest.
    rewrite (bind_ok _ _ _ _ _ (config_field_run _ _ _ Hc1')) in Hrest.
    unfold write_file in Hrest. injection Hrest as <-. simpl.
    exists lines, t. split; [rewrite lookup_insert_ne by congruence; exact El|].
    split; [exact Htr|]. apply lookup_insert_eq.
  - split; [intros _|intros H; discriminate].
    apply bind_inv_err in Hb as [Hf|[a [s1 [Hf Hrest]]]].
    + eapply fetch_frame in Hf as (_ & _ & Hp1); [|exact Hc]. apply Hp1. congruence.
    + eapply fetch_frame in Hf as (Hc1 & Ht1 & Hp1); [|exact Hc].
      assert (Hc1' : catalogs_configs s1 !! catalog_type s1 = Some cfg) by (rewrite Hc1, Ht1; exact Hc).
      apply bind_inv_err in Hrest as [Htr|[t [s2 [Htr Hrest]]]].
      * rewrite (transform_run _ _ Hc1') in Htr. injection Htr as _ <-. apply Hp1. congruence.
      * rewrite (transform_run _ _ Hc1') in Htr. injection Htr as _ <-.
        unfold _catalog_full_filename in Hrest.
        rewrite (bind_ok _ _ _ _ _ (config_field_run _ _ _ Hc1')) in Hrest.
        unfold write_file in Hrest. discriminate.
Qed.

End StoreClaims.


(** ** Further properties of the code *)

Section ExtraStore.
Context {F : Type} `{FO : FloatOps F} (X : Externals F).

(** X1. When [load] raises, the in-memory tables, the current catalog type
    and the descriptors are as before the call; only files may have changed
    (a download or CSV written by the build it started). *)
Theorem load_failure_keeps_tables (s s' : State F) e :
  load X s = (Err e, s') ->
  catalogs s' = catalogs s /\ catalog_type s' = catalog_type s /\
  catalogs_configs s' = catalogs_configs s.
Proof. intros H. destruct (load_err_frame X _ _ _ H) as (H1 & H2 & H3). auto. Qed.

(** X2. [set_type(k)] with a known [k] switches [catalog_type] to [k]
    before it loads; when that load raises, the switch stays: the current
    type is [k] while the tables and descriptors are unchanged. *)
Theorem set_type_no_rollback (s s' : State F) k e :
  is_Some (catalogs_configs s !! k) -> set_type X k s = (Err e, s') ->
  catalog_type s' = k /\ catalogs s' = catalogs s /\ catalogs_configs s' = catalogs_configs s.
Proof.
  intros Hk H. unfold set_type in H. rewrite bind_gets in H. cbv beta in H.
  rewrite bool_decide_eq_true_2 in H by exact Hk.
  unfold bind at 1, set_catalog_type in H.
  destruct (load_err_frame X _ _ _ H) as (H1 & H2 & H3). simpl in *. auto.
Qed.

(** X3. After [search], [search_by_axis] or [get_catalog] returns normally,
    a table is in memory for the current catalog type; [get_catalog] never
    returns [None] when it returns normally, but the table stored for the
    current type. *)
Theorem queries_leave_table_loaded (s s' : State F) :
  (forall a r, search X a s = (Ok r, s') -> is_Some (catalogs s' !! catalog_type s')) /\
  (forall axis sigma t', search_by_axis X axis sigma s = (Ok t', s') ->
     is_Some (catalogs s' !! catalog_type s')) /\
  (forall r, get_catalog X s = (Ok r, s') ->
     exists t, r = Some t /\ catalogs s' !! catalog_type s' = Some t).
Proof.
  split; [|split].
  - intros a r H.
    destruct (ensure_loaded X s) as [[[]|e] s1] eqn:H1;
      [|unfold search in H; rewrite (bind_err _ _ _ _ _ H1) in H; discriminate].
    destruct (ensure_loaded_loads X _ _ H1) as [t Ht].
    assert (E : search X a s = search X a s1).
    { unfold search. rewrite (bind_ok _ _ _ _ _ H1), (bind_ok _ _ _ _ _ (ensure_loaded_run X _ _ Ht)).
      reflexivity. }
    pose proof (search_loaded X a s1 t Ht) as Hs. rewrite <- E, H in Hs. simpl in Hs.
    subst s1. eauto.
  - intros axis sigma t' H. unfold search_by_axis in H.
    destruct (fle axis _); [discriminate|]. destruct (fle sigma _); [discriminate|].
    apply bind_inv_ok in H as [[] [s1 [H1 H2]]].
    destruct (ensure_loaded_loads X _ _ H1) as [t Ht].
    cbv zeta in H2. apply bind_inv_ok in H2 as [t1 [s2 [H2 H3]]].
    rewrite (current_table_run _ _ Ht) in H2. injection H2 as <- <-.
    destruct (existsb _ (cols t)); [|discriminate].
    destruct (existsb _ (rows t)); [discriminate|]. injection H3 as _ <-. eauto.
  - intros r H. unfold get_catalog in H. apply bind_inv_ok in H as [[] [s1 [H1 H2]]].
    destruct (ensure_loaded_loads X _ _ H1) as [t Ht].
    unfold _catalog, gets in H2. injection H2 as <- <-. eauto.
Qed.

(** X4. With a table in memory for the current type, [search] and
    [search_by_axis] leave the whole state (tables, type, descriptors,
    files) unchanged, and [get_catalog] returns that table without changing
    the state. *)
Theorem loaded_queries_pure (s : State F) t :
  catalogs s !! catalog_type s = Some t ->
  (forall a, snd (search X a s) = s) /\
  (forall axis sigma, snd (search_by_axis X axis sigma s) = s) /\
  get_catalog X s = (Ok (Some t), s).
Proof.
  intros Ht. split; [|split].
  - intros a. exact (search_loaded X a s t Ht).
  - intros axis sigma. exact (search_by_axis_loaded X axis sigma s t Ht).
  - exact (get_catalog_loaded X s t Ht).
Qed.

(** X5. In a batch [search], when several rows carry a requested name, the
    mapping holds the LAST of them for that name (a later row overwrites an
    earlier one). *)
Theorem batch_search_last_row (s : State F) t ids pre r post k :
  catalogs s !! catalog_type s = Some t -> In "name" (cols t) ->
  rows t = pre ++ r :: post -> row_get (cols t) r "name" = Some (CStr k) ->
  In k (map py_str ids) ->
  (forall r', In r' post -> row_get (cols t) r' "name" <> Some (CStr k)) ->
  exists m, search X (Many ids) s = (Ok (Batch m), s) /\ m !! k = Some (combine (cols t) r).
Proof.
  intros Ht Hn Hrows Hr Hk Hpost. rewrite (search_many_run X _ _ _ Ht Hn).
  eexists; split; [reflexivity|].
  rewrite Hrows, List.filter_app. simpl. rewrite (proj2 (name_in_true _ _)) by eauto.
  apply rows_to_dict_last; [exact Hr|].
  intros r' Hr'. apply List.filter_In in Hr'. apply Hpost. tauto.
Qed.

(** X6. When the raw catalog file is already on disk, [_build] does not
    download: it transforms that file and writes [to_csv] of the result as
    the cached CSV, changing nothing else; a failing transform leaves the
    state untouched. *)
Theorem build_uses_existing_raw (s : State F) cfg lines :
  catalogs_configs s !! catalog_type s = Some cfg ->
  files s !! original_filename cfg = Some lines ->
  (forall t, transform_astdys_catalog cfg lines = Ok t ->
     _build X s = (Ok tt, {| catalogs := catalogs s; catalogs_configs := catalogs_configs s;
                             catalog_type := catalog_type s;
                             files := <[filename cfg := to_csv X t]> (files s) |})) /\
  (forall e, transform_astdys_catalog cfg lines = Err e -> _build X s = (Err e, s)).
Proof.
  intros Hc Hf. rewrite (build_existing X _ _ _ Hc Hf). split.
  - intros t ->. reflexivity.
  - intros e ->. reflexivity.
Qed.

(** X7. [rebuild] deletes the raw file and builds from a new download
    ([urlretrieve] called with no file in place). When the download raises,
    [rebuild] raises and the raw file is whatever the download left there
    (no file when it left none: the old raw file is lost); when it succeeds,
    the raw file and the cached CSV are replaced. *)
Theorem rebuild_downloads (s : State F) cfg after ok :
  catalogs_configs s !! catalog_type s = Some cfg ->
  urlretrieve X (url cfg) None = (after, ok) ->
  (ok = false ->
     fst (rebuild X s) = Err DownloadError /\
     files (snd (rebuild X s)) = match after with
                                 | Some c => <[original_filename cfg := c]> (files s)
                                 | None => delete (original_filename cfg) (files s)
                                 end) /\
  (forall lines t, ok = true -> after = Some lines ->
     transform_astdys_catalog cfg lines = Ok t ->
     fst (rebuild X s) = Ok tt /\
     files (snd (rebuild X s)) =
       <[filename cfg := to_csv X t]> (<[original_filename cfg := lines]> (files s))).
Proof.
  intros Hc Hu. rewrite (rebuild_as_build X _ _ Hc).
  set (s0 := {| catalogs := catalogs s; catalogs_configs := catalogs_configs s;
                catalog_type := catalog_type s;
                files := delete (original_filename cfg) (files s) |}).
  rewrite (build_missing X s0 cfg Hc (lookup_delete_eq _ _)). unfold s0. cbn [catalogs catalogs_configs catalog_type files].
  rewrite Hu. split.
  - intros ->. split; [reflexivity|]. simpl.
    destruct after; [apply insert_delete_eq|apply delete_delete_eq].
  - intros lines t -> -> Ht. rewrite Ht. split; [reflexivity|]. simpl.
    rewrite insert_delete_eq. reflexivity.
Qed.

End ExtraStore.

Section ExtraTransform.
Context {F : Type} `{FO : FloatOps F}.

(** X8. No text cell of the table the catalog transform returns contains a
    quote mark ([']). *)
Theorem transform_no_quotes (cfg : Catalog) (lines : list string) (t : DataFrame F) :
  transform_astdys_catalog cfg lines = Ok t ->
  forall r s, In r (rows t) -> In (CStr s) r -> ~ In "'"%char (list_ascii_of_string s).
Proof.
  unfold transform_astdys_catalog, rbind.
  destruct (pd_read_csv (columns cfg) (skip_rows cfg) lines) as [t0|]; [|discriminate].
  destruct (convert_columns _ _) as [t3|] eqn:E3; [|discriminate].
  intros H. eapply epoch_last_free; [|exact H].
  eapply convert_columns_free; [|exact E3].
  apply drop_del_free, strip_quotes_free.
Qed.


End ExtraTransform.

Module ExtraDates.
Import PyDateTime PyStrftime StrftimeFacts DateLemmas.
Local Open Scope Z_scope.

(** X10. Every datetime [convert_mjd_to_datetime] returns is a valid
    [datetime]: year in 1..9999, month in 1..12, day within its month (29
    February only in leap years), hour, minute, second and microsecond in
    range. *)
Theorem convert_mjd_valid (m : Q) (d : datetime) :
  convert_mjd_to_datetime m = Ok d -> check_fields d = true.
Proof. apply mjd_datetime_fields. Qed.

(** X11. On a whole number [n] of days, [convert_mjd_to_datetime] gives
    midnight of the date with ordinal [678576 + n] (1858-11-17 has ordinal
    678576) when [-678575 <= n <= 2973483], and raises OverflowError
    otherwise (the date would fall outside years 1..9999). *)
Theorem convert_mjd_integer (n : Z) :
  convert_mjd_to_datetime (inject_Z n) =
    if (-678575 <=? n) && (n <=? 2973483) then
      Ok (let '(y, m, d) := ord2ymd (678576 + n) in
          {| year := y; month := m; day := d;
             hour := 0; minute := 0; second := 0; microsecond := 0 |})
    else Err OverflowError.
Proof.
  unfold convert_mjd_to_datetime, timedelta_days, rbind.
  rewrite DateTimeFacts.timedelta_us_Z.
  assert (HD : 0 < US_PER_DAY) by (unfold US_PER_DAY; lia).
  rewrite Z.div_mul by lia.
  destruct (999999999 <? Z.abs n) eqn:Ea.
  - apply Z.ltb_lt in Ea.
    replace ((-678575 <=? n) && (n <=? 2973483)) with false; [reflexivity|].
    symmetry. apply andb_false_iff. destruct (Z.abs_spec n) as [[_ Hn]|[_ Hn]];
      [right|left]; apply Z.leb_gt; lia.
  - apply Z.ltb_ge in Ea. cbn [rbind].
    unfold add_timedelta. cbn [year month day hour minute second microsecond base_date].
    rewrite base_ordinal.
    replace (((678576 - 1) * 86400 + 0 * 3600 + 0 * 60 + 0) * 1000000 + 0 + n * US_PER_DAY)
      with ((678575 + n) * US_PER_DAY) by (unfold US_PER_DAY; ring).
    rewrite Z.div_mul, Z.mod_mul by lia.
    destruct ((-678575 <=? n) && (n <=? 2973483)) eqn:Er.
    + apply andb_true_iff in Er as [E1 E2]. apply Z.leb_le in E1, E2.
      replace ((678575 + n + 1 <? 1) || (MAXORDINAL <? 678575 + n + 1)) with false
        by (symmetry; apply orb_false_iff; split; apply Z.ltb_ge; unfold MAXORDINAL; lia).
      replace (678575 + n + 1) with (678576 + n) by ring.
      destruct (ord2ymd (678576 + n)) as [[y m] d]. reflexivity.
    + replace ((678575 + n + 1 <? 1) || (MAXORDINAL <? 678575 + n + 1)) with true;
        [reflexivity|].
      symmetry. apply andb_false_iff in Er as [E|E]; apply Z.leb_gt in E;
        apply orb_true_iff; [left|right]; apply Z.ltb_lt; unfold MAXORDINAL; lia.
Qed.

(** X12. When the date is in a year from 1000 on, [convert_mjd_to_date]
    returns ["YYYY-MM-DD HH:MM:SS"]: fields of four and two digits separated
    by '-', ' ' and ':', each reading back as the year, month, day, hour,
    minute and second of [convert_mjd_to_datetime]. *)
Theorem convert_mjd_to_date_layout (m : Q) (d : datetime) :
  convert_mjd_to_datetime m = Ok d -> 1000 <= year d ->
  exists sY sM sD sh smi ss,
    convert_mjd_to_date m =
      Ok (sY ++ "-" ++ sM ++ "-" ++ sD ++ " " ++ sh ++ ":" ++ smi ++ ":" ++ ss)%string /\
    String.length sY = 4%nat /\ String.length sM = 2%nat /\ String.length sD = 2%nat /\
    String.length sh = 2%nat /\ String.length smi = 2%nat /\ String.length ss = 2%nat /\
    int_of_digits sY = Some (year d) /\ int_of_digits sM = Some (month d) /\
    int_of_digits sD = Some (day d) /\ int_of_digits sh = Some (hour d) /\
    int_of_digits smi = Some (minute d) /\ int_of_digits ss = Some (second d).
Proof.
  intros H Hy. pose proof (mjd_datetime_fields _ _ H) as Hv.
  unfold check_fields in Hv. repeat rewrite andb_true_iff in Hv. rewrite !Z.leb_le in Hv.
  assert (Hdim : days_in_month (year d) (month d) <= 31).
  { unfold days_in_month, DAYS_IN_MONTH.
    destruct (_ && _); [lia|].
    assert (Hm : month d = 1 \/ month d = 2 \/ month d = 3 \/ month d = 4 \/ month d = 5 \/
                 month d = 6 \/ month d = 7 \/ month d = 8 \/ month d = 9 \/ month d = 10 \/
                 month d = 11 \/ month d = 12) by lia.
    destruct Hm as [->|[->|[->|[->|[->|[->|[->|[->|[->|[->|[->| ->]]]]]]]]]]];
      simpl; lia. }
  exists (pad 4 (year d)), (pad 2 (month d)), (pad 2 (day d)), (pad 2 (hour d)),
    (pad 2 (minute d)), (pad 2 (second d)).
  split; [unfold convert_mjd_to_date, rbind; rewrite H; reflexivity|].
  rewrite !length_pad.
  do 6 (split; [reflexivity|]).
  repeat split; apply int_of_digits_pad; simpl; lia.
Qed.

End ExtraDates.

Section ExtraEpoch.
Context {F : Type} `{FO : FloatOps F} (X : Externals F) (float_value : F -> Q).

(** X13. [get_catalog_datetime] and [get_catalog_time] raise ValueError,
    without loading or changing anything, when the current catalog type is
    not "osculating". *)
Theorem epoch_needs_osculating (s : State F) :
  catalog_type s <> "osculating"%string ->
  get_catalog_datetime X float_value s = (Err ValueError, s) /\
  get_catalog_time X float_value s = (Err ValueError, s).
Proof.
  intros Hk. apply epoch_fails. unfold catalog_epoch. rewrite (bind_gets (F:=F) catalog_type). cbv beta.
  apply String.eqb_neq in Hk. rewrite Hk. reflexivity.
Qed.

(** X14. With the osculating table in memory (unique column names, a
    [name] column), [get_catalog_datetime] and [get_catalog_time] convert
    the [epoch] value of the FIRST row named "1" with
    [convert_mjd_to_datetime] and [convert_mjd_to_date]; the state stays
    the same. *)
Theorem epoch_of_first_row (s : State F) (t : DataFrame F) pre r post (v : cell F) :
  catalog_type s = "osculating"%string -> catalogs s !! "osculating"%string = Some t ->
  In "name"%string (cols t) -> NoDup (cols t) ->
  rows t = pre ++ r :: post ->
  (forall r', In r' pre -> row_get (cols t) r' "name" <> Some (CStr "1")) ->
  row_get (cols t) r "name" = Some (CStr "1") ->
  row_get (cols t) r "epoch" = Some v ->
  get_catalog_datetime X float_value s =
    (let! q := timedelta_arg float_value v in PyDateTime.convert_mjd_to_datetime q, s) /\
  get_catalog_time X float_value s =
    (let! q := timedelta_arg float_value v in PyStrftime.convert_mjd_to_date q, s).
Proof.
  intros Hk Ht Hn Hnd Hrows Hpre Hr Hv. apply epoch_then.
  rewrite (catalog_epoch_run X s t Hk Ht Hn), Hrows, List.filter_app.
  rewrite (filter_none _ pre).
  2:{ intros r' Hr'. destruct (name_is _ _) eqn:E; [|reflexivity].
      apply name_is_true in E. exfalso. exact (Hpre r' Hr' E). }
  simpl. rewrite (proj2 (name_is_true _ _) Hr).
  rewrite dict_get_combine, Hv by exact Hnd. reflexivity.
Qed.

(** X15. With the osculating table in memory (unique column names),
    [get_catalog_datetime] and [get_catalog_time] raise ValueError when no
    row is named "1" or there is no [epoch] column, and KeyError (from
    [search]) when there is no [name] column; the state stays the same. *)
Theorem epoch_unavailable (s : State F) (t : DataFrame F) :
  catalog_type s = "osculating"%string -> catalogs s !! "osculating"%string = Some t ->
  NoDup (cols t) ->
  (In "name"%string (cols t) ->
   (forall r, In r (rows t) -> row_get (cols t) r "name" <> Some (CStr "1")) \/
   ~ In "epoch"%string (cols t) ->
   get_catalog_datetime X float_value s = (Err ValueError, s) /\
   get_catalog_time X float_value s = (Err ValueError, s)) /\
  (~ In "name"%string (cols t) ->
   get_catalog_datetime X float_value s = (Err KeyError, s) /\
   get_catalog_time X float_value s = (Err KeyError, s)).
Proof.
  intros Hk Ht Hnd. split.
  - intros Hn Hcase. apply epoch_fails.
    rewrite (catalog_epoch_run X s t Hk Ht Hn).
    destruct Hcase as [Hno|He].
    + rewrite filter_none; [reflexivity|].
      intros r Hr. destruct (name_is _ _) eqn:E; [|reflexivity].
      apply name_is_true in E. exfalso. exact (Hno r Hr E).
    + destruct (List.filter _ (rows t)) as [|r rs]; [reflexivity|].
      rewrite dict_get_combine, row_get_absent by assumption. reflexivity.
  - intros Hn. apply epoch_fails. rewrite <- Hk in Ht.
    unfold catalog_epoch. rewrite (bind_gets (F:=F) catalog_type). cbv beta. rewrite Hk.
    rewrite String.eqb_refl. cbn [negb].
    rewrite (bind_ok _ _ _ _ _ (ensure_loaded_run X _ _ Ht)).
    rewrite (bind_err _ _ _ _ _ (search_one_no_name X s t (IInt 1) Ht Hn)). reflexivity.
Qed.

End ExtraEpoch.

(** ** The statements on the sample inputs *)

Module SampleRuns.
Import QFloat Examples PyDateTime.





(** C3 on the sample: [search_by_axis(2.7, 0.1)] keeps the two rows with
    [a] in [[2.6, 2.8]]. *)
Lemma search_by_axis_spec_witness :
  exists t', search_by_axis X0 (27 # 10) (1 # 10) sample_state = (Ok t', sample_state) /\
    rows t' = [[CStr "1"; CNum (27658 # 10000)]; [CStr "2"; CNum (277 # 100)]].
Proof.
  destruct (proj2 (proj2 (search_by_axis_spec X0 (27 # 10) (1 # 10))
                     sample_state sample_table eq_refl
                     ltac:(simpl; auto)
                     ltac:(intros r Hr; simpl in Hr;
                           destruct Hr as [<-|[<-|[<-|[]]]]; reflexivity))
              eq_refl eq_refl) as (t' & H1 & _ & H3 & _).
  exists t'. split; [exact H1|]. rewrite H3. vm_compute. reflexivity.
Defined.

(** C4 on the sample: [search(7)] finds nothing and gives [None];
    [search([1, "433", 7])] has a key ["433"] and none ["7"]. *)
Lemma search_match_spec_witness :
  search X0 (One (IInt 7)) sample_state = (Ok (Single None), sample_state) /\
  exists m, search X0 (Many [IInt 1; IStr "433"; IInt 7]) sample_state = (Ok (Batch m), sample_state) /\
    is_Some (m !! "433") /\ m !! "7" = None.
Proof.
  destruct (search_match_spec X0 sample_state sample_table eq_refl ltac:(simpl; auto))
    as [_ [Hnone Hmany]].
  split.
  - apply Hnone. intros r Hr. simpl in Hr.
    destruct Hr as [<-|[<-|[<-|[]]]]; vm_compute; discriminate.
  - destruct (Hmany [IInt 1; IStr "433"; IInt 7]) as [m [Hm Hk]].
    exists m. split; [exact Hm|]. split.
    + apply Hk. split.
      * vm_compute. right. left. reflexivity.
      * exists [CStr "433"; CNum (14582 # 10000)]. split; [simpl; auto|reflexivity].
    + destruct (m !! "7") eqn:E; [|reflexivity]. exfalso.
      destruct (proj1 (Hk "7") (ex_intro _ _ E)) as [_ [r [Hr Hn]]].
      simpl in Hr. destruct Hr as [<-|[<-|[<-|[]]]]; vm_compute in Hn; discriminate.
Defined.

(** C5 on the samples: [set_type("bogus")] raises and keeps the state;
    [set_type("osculating")] from a fresh state ends with the table
    [read_csv] gives for the built CSV. *)
Lemma set_type_spec_witness :
  set_type X0 "bogus" sample_state = (Err ValueError, sample_state) /\
  catalogs (snd (set_type X0 "osculating" fresh_state)) !! "osculating" = Some sample_table.
Proof.
  split.
  - apply (proj1 (set_type_spec X0 sample_state "bogus")). reflexivity.
  - assert (Hs : set_type X0 "osculating" fresh_state =
                  (Ok tt, snd (set_type X0 "osculating" fresh_state)))
      by (vm_compute; reflexivity).
    destruct (proj2 (proj2 (set_type_spec X0 fresh_state "osculating")
                        OSCULATING_CATALOG eq_refl)
                (snd (set_type X0 "osculating" fresh_state)) Hs)
      as [_ (c & t & Hc & Hr & Ht)].
    rewrite Ht. vm_compute in Hc. injection Hc as <-. vm_compute in Hr.
    injection Hr as <-. reflexivity.
Defined.

(** C6 (counterexample). With the osculating table in memory and the CSV
    missing, [load] raises FileNotFoundError without building, where the
    load the claim describes builds the CSV and returns. *)
Lemma load_loaded_counterexample :
  is_Some (catalogs sample_state !! catalog_type sample_state) /\
  files sample_state !! filename OSCULATING_CATALOG = None /\
  load X0 sample_state = (Err FileNotFoundError, sample_state) /\
  fst (load_as_claimed X0 sample_state) = Ok tt /\
  is_Some (files (snd (load_as_claimed X0 sample_state)) !! filename OSCULATING_CATALOG).
Proof.
  split; [eexists; reflexivity|]. split; [reflexivity|].
  split; [vm_compute; reflexivity|]. split; [vm_compute; reflexivity|].
  eexists. vm_compute. reflexivity.
Qed.

(** C6 on the samples: the loaded table with the CSV missing, and the fresh state. *)
Lemma load_spec_witness :
  load X0 sample_state = (Err FileNotFoundError, sample_state) /\
  load X0 fresh_state =
    bind (_build X0) (fun _ => read_cached X0 "cache/allnum.csv") fresh_state.
Proof.
  destruct (load_spec X0 sample_state OSCULATING_CATALOG eq_refl) as (_ & H2 & _).
  destruct (load_spec X0 fresh_state OSCULATING_CATALOG eq_refl) as (_ & _ & H3 & _).
  split.
  - apply H2; [eexists; reflexivity|reflexivity].
  - apply H3; reflexivity.
Defined.

(** C7 on the samples: with no raw file and no network the build fails and
    no CSV appears; with the raw file it writes [to_csv] of the transform. *)
Lemma build_no_partial_csv_witness :
  files (snd (_build X0 empty_state)) !! filename OSCULATING_CATALOG = None /\
  exists t, transform_astdys_catalog OSCULATING_CATALOG sample_raw = Ok t /\
    files (snd (_build X0 fresh_state)) !! filename OSCULATING_CATALOG = Some (to_csv X0 t).
Proof.
  assert (He : fst (_build X0 empty_state) <> Ok tt) by (vm_compute; discriminate).
  assert (Hf : fst (_build X0 fresh_state) = Ok tt) by (vm_compute; reflexivity).
  split.
  - rewrite (proj1 (build_no_partial_csv X0 empty_state (snd (_build X0 empty_state))
                      OSCULATING_CATALOG (fst (_build X0 empty_state)) eq_refl
                      ltac:(discriminate) (surjective_pairing _))
                   He).
    reflexivity.
  - destruct (proj2 (build_no_partial_csv X0 fresh_state (snd (_build X0 fresh_state))
                       OSCULATING_CATALOG (fst (_build X0 fresh_state)) eq_refl
                       ltac:(discriminate) (surjective_pairing _))
                    Hf) as (lines & t & Hl & Ht & Hw).
    vm_compute in Hl. injection Hl as <-. exists t. split; [exact Ht|exact Hw].
Defined.

(** C8 (amended) on [0 <= 59215]: 1858-11-17 comes before 2021-01-01. *)
Lemma mjd_zero_and_monotone_witness :
  convert_mjd_to_datetime (inject_Z 59215) =
    Ok {| year := 2021; month := 1; day := 1;
          hour := 0; minute := 0; second := 0; microsecond := 0 |} /\
  dt_le base_date {| year := 2021; month := 1; day := 1;
                     hour := 0; minute := 0; second := 0; microsecond := 0 |} = true.
Proof.
  assert (H : convert_mjd_to_datetime (inject_Z 59215) =
    Ok {| year := 2021; month := 1; day := 1;
          hour := 0; minute := 0; second := 0; microsecond := 0 |})
    by (vm_compute; reflexivity).
  split; [exact H|].
  apply (proj2 MjdClaims.mjd_zero_and_monotone 0%Q (inject_Z 59215)); [|exact (proj1 MjdClaims.mjd_zero_and_monotone)|exact H].
  unfold Qle; simpl; lia.
Defined.

(** C9 on the sample: two rows are named "1"; [search(1)] returns the
    first. *)
Lemma search_first_match_witness :
  search X0 (One (IInt 1)) dup_state =
    (Ok (Single (Some [("name", CStr "1"); ("a", CNum (27658 # 10000))])), dup_state).
Proof.
  apply (search_first_match X0 dup_state sample_dup_table (IInt 1)
           [[CStr "5"; CNum (3 # 1)]] [[CStr "1"; CNum (29 # 10)]]
           [CStr "1"; CNum (27658 # 10000)]).
  - reflexivity.
  - simpl; auto.
  - reflexivity.
  - intros r' [<-|[]]. vm_compute. discriminate.
  - reflexivity.
Defined.

(** C10 on the sample: the lazy load of [search(1)] from a fresh state
    only sets the osculating entry. *)
Lemma queries_frame_witness :
  current_entry_only fresh_state (snd (search X0 (One (IInt 1)) fresh_state)).
Proof.
  apply (proj1 (queries_frame X0 fresh_state (snd (search X0 (One (IInt 1)) fresh_state)))
           (One (IInt 1)) (fst (search X0 (One (IInt 1)) fresh_state))).
  apply surjective_pairing.
Defined.

End SampleRuns.

(** ** The properties above on the sample states *)

Module ExtraRuns.
Import QFloat Examples ExtraExamples PyDateTime PyStrftime.

(** X1 on the samples: with no file and no network, [load] raises and the
    tables stay empty. *)
Lemma load_failure_keeps_tables_witness :
  fst (load X0 empty_state) = Err DownloadError /\
  catalogs (snd (load X0 empty_state)) = ∅.
Proof.
  assert (H : load X0 empty_state = (Err DownloadError, snd (load X0 empty_state)))
    by (vm_compute; reflexivity).
  split; [rewrite H; reflexivity|].
  exact (proj1 (load_failure_keeps_tables X0 empty_state _ _ H)).
Defined.

(** X2 on the samples: [set_type("synthetic")] from [sample_state] raises
    (no synthetic file, no network) and leaves "synthetic" selected. *)
Lemma set_type_no_rollback_witness :
  fst (set_type X0 "synthetic" sample_state) = Err DownloadError /\
  catalog_type (snd (set_type X0 "synthetic" sample_state)) = "synthetic".
Proof.
  assert (H : set_type X0 "synthetic" sample_state =
                (Err DownloadError, snd (set_type X0 "synthetic" sample_state)))
    by (vm_compute; reflexivity).
  split; [rewrite H; reflexivity|].
  exact (proj1 (set_type_no_rollback X0 sample_state _ "synthetic" _
                  ltac:(eexists; reflexivity) H)).
Defined.

(** X3 on the samples: [search(1)] from a fresh state builds, loads and
    leaves the osculating table in memory. *)
Lemma queries_leave_table_loaded_witness :
  is_Some (catalogs (snd (search X0 (One (IInt 1)) fresh_state)) !! "osculating").
Proof.
  assert (H : search X0 (One (IInt 1)) fresh_state =
                (Ok (Single (Some [("name", CStr "1"); ("a", CNum (27658 # 10000))])),
                 snd (search X0 (One (IInt 1)) fresh_state)))
    by (vm_compute; reflexivity).
  assert (Ht : catalog_type (snd (search X0 (One (IInt 1)) fresh_state)) = "osculating")
    by (vm_compute; reflexivity).
  rewrite <- Ht.
  exact (proj1 (queries_leave_table_loaded X0 fresh_state _) _ _ H).
Defined.

(** X4 on the samples. *)
Lemma loaded_queries_pure_witness :
  snd (search X0 (Many [IInt 1; IInt 2]) sample_state) = sample_state /\
  get_catalog X0 sample_state = (Ok (Some sample_table), sample_state).
Proof.
  destruct (loaded_queries_pure X0 sample_state sample_table eq_refl) as [H1 [_ H3]].
  split; [apply H1|exact H3].
Defined.

(** X5 on the samples: rows 2 and 3 of [sample_dup_table] are named "1";
    [search([1])] maps "1" to the third. *)
Lemma batch_search_last_row_witness :
  exists m, search X0 (Many [IInt 1]) dup_state = (Ok (Batch m), dup_state) /\
    m !! "1" = Some [("name", CStr "1"); ("a", CNum (29 # 10))].
Proof.
  exact (batch_search_last_row X0 dup_state sample_dup_table [IInt 1]
           [[CStr "5"; CNum (3 # 1)]; [CStr "1"; CNum (27658 # 10000)]]
           [CStr "1"; CNum (29 # 10)] [] "1"
           eq_refl ltac:(simpl; auto) eq_refl eq_refl ltac:(simpl; auto)
           ltac:(intros r' [])).
Defined.

(** X6 on the samples: the raw file is on disk; [_build] writes the CSV. *)
Lemma build_uses_existing_raw_witness :
  exists t, transform_astdys_catalog OSCULATING_CATALOG sample_raw = Ok t /\
    _build X0 fresh_state =
      (Ok tt, {| catalogs := ∅; catalogs_configs := sample_configs;
                 catalog_type := "osculating";
                 files := <["cache/allnum.csv" := ["name,a"]]> (files fresh_state) |}).
Proof.
  assert (Ht : exists t, transform_astdys_catalog (F:=Q) OSCULATING_CATALOG sample_raw = Ok t)
    by (eexists; vm_compute; reflexivity).
  destruct Ht as [t Ht]. exists t. split; [exact Ht|].
  exact (proj1 (build_uses_existing_raw X0 fresh_state OSCULATING_CATALOG sample_raw
                  eq_refl eq_refl) t Ht).
Defined.

(** X7 on the samples: offline, [rebuild] loses the raw file; online, it
    replaces it and writes the CSV. *)
Lemma rebuild_downloads_witness :
  fst (rebuild X0 fresh_state) = Err DownloadError /\
  files (snd (rebuild X0 fresh_state)) = delete "cache/allnum.cat" (files fresh_state) /\
  fst (rebuild X_online fresh_state) = Ok tt /\
  files (snd (rebuild X_online fresh_state)) =
    <["cache/allnum.csv" := ["name,a"]]> (<["cache/allnum.cat" := sample_raw]> (files fresh_state)).
Proof.
  destruct (rebuild_downloads X0 fresh_state OSCULATING_CATALOG None false eq_refl eq_refl)
    as [Hoff _].
  destruct (Hoff eq_refl) as [H1 H2].
  assert (Ht : exists t, transform_astdys_catalog (F:=Q) OSCULATING_CATALOG sample_raw = Ok t)
    by (eexists; vm_compute; reflexivity).
  destruct Ht as [t Ht].
  destruct (proj2 (rebuild_downloads X_online fresh_state OSCULATING_CATALOG
                     (Some sample_raw) true eq_refl eq_refl) sample_raw t eq_refl eq_refl Ht)
    as [H3 H4].
  split; [exact H1|]. split; [exact H2|]. split; [exact H3|]. exact H4.
Defined.

(** X8 on the samples: the quoted names and the quoted anomaly lose their
    quotes. *)
Lemma transform_no_quotes_witness :
  exists t, transform_astdys_catalog (F:=Q) OSCULATING_CATALOG sample_raw = Ok t /\
    cell_at t 0 "name" = Some (CStr "1") /\
    forall r s, In r (rows t) -> In (CStr s) r -> ~ In "'"%char (list_ascii_of_string s).
Proof.
  assert (Ht : exists t, transform_astdys_catalog (F:=Q) OSCULATING_CATALOG sample_raw = Ok t)
    by (eexists; vm_compute; reflexivity).
  destruct Ht as [t Ht]. exists t. split; [exact Ht|].
  split; [|exact (transform_no_quotes OSCULATING_CATALOG sample_raw t Ht)].
  revert Ht. vm_compute. intros Ht. injection Ht as <-. reflexivity.
Defined.


(** X10 on MJD 59215 (2021-01-01). *)
Lemma convert_mjd_valid_witness :
  check_fields {| year := 2021; month := 1; day := 1;
                  hour := 0; minute := 0; second := 0; microsecond := 0 |} = true.
Proof.
  apply (ExtraDates.convert_mjd_valid (inject_Z 59215)). vm_compute. reflexivity.
Defined.

(** X12 on MJD 59215: "2021-01-01 00:00:00". *)
Lemma convert_mjd_to_date_layout_witness :
  convert_mjd_to_date (inject_Z 59215) = Ok "2021-01-01 00:00:00"%string /\
  exists sY sM sD sh smi ss,
    convert_mjd_to_date (inject_Z 59215) =
      Ok (sY ++ "-" ++ sM ++ "-" ++ sD ++ " " ++ sh ++ ":" ++ smi ++ ":" ++ ss)%string /\
    int_of_digits sY = Some 2021%Z.
Proof.
  split; [vm_compute; reflexivity|].
  destruct (ExtraDates.convert_mjd_to_date_layout (inject_Z 59215)
              {| year := 2021; month := 1; day := 1;
                 hour := 0; minute := 0; second := 0; microsecond := 0 |}
              ltac:(vm_compute; reflexivity) ltac:(simpl; lia))
    as (sY & sM & sD & sh & smi & ss & H & _ & _ & _ & _ & _ & _ & HY & _).
  exists sY, sM, sD, sh, smi, ss. split; [exact H|exact HY].
Defined.

(** X13 on the samples: the synthetic catalog has no epoch. *)
Lemma epoch_needs_osculating_witness :
  get_catalog_datetime X0 q_value synthetic_state = (Err ValueError, synthetic_state) /\
  get_catalog_time X0 q_value synthetic_state = (Err ValueError, synthetic_state).
Proof. apply epoch_needs_osculating. discriminate. Defined.

(** X14 on the samples: the first row named "1" has epoch 59215. *)
Lemma epoch_of_first_row_witness :
  get_catalog_datetime X0 q_value epoch_state =
    (Ok {| year := 2021; month := 1; day := 1;
           hour := 0; minute := 0; second := 0; microsecond := 0 |}, epoch_state) /\
  get_catalog_time X0 q_value epoch_state = (Ok "2021-01-01 00:00:00"%string, epoch_state).
Proof.
  destruct (epoch_of_first_row X0 q_value epoch_state epoch_table
              [[CStr "2"; CNum (277 # 100); CNum (59000 # 1)]]
              [CStr "1"; CNum (27658 # 10000); CNum (59215 # 1)]
              [[CStr "1"; CNum (29 # 10); CNum (60000 # 1)]] (CNum (59215 # 1))
              eq_refl eq_refl ltac:(simpl; auto)
              ltac:(apply (bool_decide_unpack (NoDup (cols epoch_table))); vm_compute; exact I)
              eq_refl
              ltac:(intros r' [<-|[]]; vm_compute; discriminate)
              eq_refl eq_refl) as [H1 H2].
  rewrite H1, H2. split; vm_compute; reflexivity.
Defined.

(** X15 on the samples: [sample_table] has no [epoch] column. *)
Lemma epoch_unavailable_witness :
  get_catalog_datetime X0 q_value sample_state = (Err ValueError, sample_state) /\
  get_catalog_time X0 q_value sample_state = (Err ValueError, sample_state).
Proof.
  apply (proj1 (epoch_unavailable X0 q_value sample_state sample_table eq_refl eq_refl
                  ltac:(apply (bool_decide_unpack (NoDup (cols sample_table))); vm_compute; exact I))).
  - simpl; auto.
  - right. simpl. intros [H|[H|[]]]; discriminate.
Defined.

End ExtraRuns.
